(** * Keyring Tools: the bulk CSV processor and the command-line handlers

    A shallow embedding of [src/v2.0/keyring_tools.py] (the functions
    [clear_clipboard_after], [process_bulk_csv] and [cli_handler]) and of the
    three v1.0 scripts [set_cred.py], [get_cred.py] and [del_cred.py].

    Conventions of the embedding.
    - A Python [str] is a [string]; its characters are read as the code
      points U+0000 to U+00FF.  [str.strip] and [str.lower] are defined as
      Python defines them on that range.  The one character of the
      program's messages that lies outside it, the sign ≤, stands in a
      message as the bytes of its UTF-8 encoding, which is how the results
      file holds it.
    - Python statements live in a state-and-exception monad [M].  An
      exception keeps every effect that happened before it was raised.
    - The [keyring] package is an external dependency.  Its store is a
      dictionary keyed by (service, username); [get_password] answers [None]
      for a missing entry and [delete_password] raises [PasswordDeleteError]
      for one, as the package documents.
    - [csv.reader] is the standard library's tokenizer: an input file is the
      list of records it yields (one list of fields per line, the empty list
      for a blank line).  [csv.DictReader] is modelled on top of it. *)

From Stdlib Require Import ZArith Ascii String Lia.
From stdpp Require Import base option list strings pretty gmap.

Local Open Scope Z_scope.
Local Open Scope nat_scope.
Local Open Scope stdpp_scope.

(** ** Python strings *)

Module Str.

(** [str.isspace] on one character: TAB, LF, VT, FF, CR, the separators
    U+001C to U+001F, SPACE, NEL (U+0085) and NBSP (U+00A0). *)
Definition isspace (c : ascii) : bool :=
  let n := N_of_ascii c in
  ((9 <=? n) && (n <=? 13) || (28 <=? n) && (n <=? 32)
   || (n =? 133) || (n =? 160))%N.

(** [str.lower] on one character: A-Z, and the Latin-1 capitals U+00C0 to
    U+00DE without the multiplication sign U+00D7, move up by 32. *)
Definition lower_char (c : ascii) : ascii :=
  let n := N_of_ascii c in
  if ((65 <=? n) && (n <=? 90)
      || (192 <=? n) && (n <=? 222) && negb (n =? 215))%N
  then ascii_of_N (n + 32) else c.

Fixpoint lower (s : string) : string :=
  match s with
  | EmptyString => EmptyString
  | String c s' => String (lower_char c) (lower s')
  end.

Fixpoint lstrip (s : string) : string :=
  match s with
  | EmptyString => EmptyString
  | String c s' => if isspace c then lstrip s' else s
  end.

(** [rstrip] walks from the right: a character is dropped when it is a
    space and everything after it has been dropped. *)
Fixpoint rstrip (s : string) : string :=
  match s with
  | EmptyString => EmptyString
  | String c s' =>
      match rstrip s' with
      | EmptyString => if isspace c then EmptyString else String c EmptyString
      | r => String c r
      end
  end.

Definition strip (s : string) : string := rstrip (lstrip s).

(** [len(s)] *)
Definition len (s : string) : nat := String.length s.

(** [bool(s)]: a string is true when it is not empty. *)
Definition truth (s : string) : bool :=
  match s with EmptyString => false | String _ _ => true end.

(** [c * n] *)
Fixpoint times (c : ascii) (n : nat) : string :=
  match n with O => EmptyString | S n' => String c (times c n') end.

Definition quote : string := String (ascii_of_nat 34) EmptyString.
Definition newline : string := String (ascii_of_nat 10) EmptyString.

End Str.

(** ** Exceptions *)

Inductive exception : Type :=
| ValueError (msg : string)
| AttributeError (msg : string)
| KeyError (msg : string)
| UnboundLocalError (msg : string)
| FileNotFoundError (msg : string)
| PasswordDeleteError (msg : string)
| KeyringError (msg : string)
| SystemExit (code : Z).

(** [str(e)] *)
Definition str (e : exception) : string :=
  match e with
  | ValueError m | AttributeError m | KeyError m | UnboundLocalError m
  | FileNotFoundError m | PasswordDeleteError m | KeyringError m => m
  | SystemExit c => pretty c
  end.

(** [isinstance(e, Exception)]: [SystemExit] derives from [BaseException]
    only, so [except Exception] lets it through. *)
Definition is_Exception (e : exception) : bool :=
  match e with SystemExit _ => false | _ => true end.

(** [isinstance(e, keyring.errors.KeyringError)]: [PasswordDeleteError] is a
    subclass of [KeyringError]. *)
Definition is_KeyringError (e : exception) : bool :=
  match e with PasswordDeleteError _ | KeyringError _ => true | _ => false end.

Definition is_PasswordDeleteError (e : exception) : bool :=
  match e with PasswordDeleteError _ => true | _ => false end.

(** ** The state the program runs in *)

(** One operation on the secret store, as the program issued it. *)
Inductive call : Type :=
| SetPassword (system username password : string)
| GetPassword (system username : string)
| DeletePassword (system username : string).

Record state : Type := State {
  (** the secret store behind [keyring] *)
  store : gmap (string * string) string;
  (** every [keyring] operation issued so far, oldest first *)
  calls : list call;
  (** readable CSV files by path, as [csv.reader] tokenizes them *)
  files : gmap string (list (list string));
  (** lines of [RESULTS_FILE] *)
  out_file : list string;
  (** what [print] sent to standard output and to standard error *)
  stdout : list string;
  stderr : list string;
  (** texts set on the form's result label, with their error style *)
  label : list (string * bool);
  (** whether the platform's viewer can be launched; [Some m] is the
      description of the exception it raises *)
  viewer : option string;
  (** content of the clipboard *)
  clipboard : string;
  (** delays of the clearing threads started so far, oldest first *)
  timers : list nat;
  (** the locals [system] and [username] of [process_bulk_csv]; [None] is
      a local that has not been assigned yet *)
  loc_system : option string;
  loc_username : option string
}.

(** ** The monad of Python statements *)

Definition M (A : Type) : Type := state → (exception + A) * state.

Global Instance M_ret : MRet M := λ A x st, (inr x, st).

Global Instance M_bind : MBind M := λ A B f m st,
  match m st with
  | (inr x, st') => f x st'
  | (inl e, st') => (inl e, st')
  end.

Definition raise {A : Type} (e : exception) : M A := λ st, (inl e, st).

(** [try: body  except ...: handler]; a handler that does not match the
    exception raises it again. *)
Definition try_except {A : Type} (body : M A) (handler : exception → M A) : M A :=
  λ st,
    match body st with
    | (inl e, st') => handler e st'
    | r => r
    end.

(** [except Exception as e: h e] *)
Definition except_Exception {A : Type} (h : exception → M A) : exception → M A :=
  λ e, if is_Exception e then h e else raise e.

Definition modify (f : state → state) : M unit := λ st, (inr tt, f st).
Definition gets {A : Type} (f : state → A) : M A := λ st, (inr (f st), st).

(** [sys.exit(code)] *)
Definition sys_exit {A : Type} (code : Z) : M A := raise (SystemExit code).

(** The exit status of the interpreter after the main module ran. *)
Definition exit_code {A : Type} (r : exception + A) : Z :=
  match r with
  | inr _ => 0%Z
  | inl (SystemExit c) => c
  | inl _ => 1%Z
  end.

(** Field updates. *)

Definition set_store (v : gmap (string * string) string) (st : state) : state :=
  State v (calls st) (files st) (out_file st) (stdout st) (stderr st)
    (label st) (viewer st) (clipboard st) (timers st) (loc_system st)
    (loc_username st).
Definition set_calls (v : list call) (st : state) : state :=
  State (store st) v (files st) (out_file st) (stdout st) (stderr st)
    (label st) (viewer st) (clipboard st) (timers st) (loc_system st)
    (loc_username st).
Definition set_out_file (v : list string) (st : state) : state :=
  State (store st) (calls st) (files st) v (stdout st) (stderr st) (label st)
    (viewer st) (clipboard st) (timers st) (loc_system st) (loc_username st).
Definition set_stdout (v : list string) (st : state) : state :=
  State (store st) (calls st) (files st) (out_file st) v (stderr st)
    (label st) (viewer st) (clipboard st) (timers st) (loc_system st)
    (loc_username st).
Definition set_stderr (v : list string) (st : state) : state :=
  State (store st) (calls st) (files st) (out_file st) (stdout st) v
    (label st) (viewer st) (clipboard st) (timers st) (loc_system st)
    (loc_username st).
Definition set_label (v : list (string * bool)) (st : state) : state :=
  State (store st) (calls st) (files st) (out_file st) (stdout st) (stderr st)
    v (viewer st) (clipboard st) (timers st) (loc_system st) (loc_username st).
Definition set_clipboard (v : string) (st : state) : state :=
  State (store st) (calls st) (files st) (out_file st) (stdout st) (stderr st)
    (label st) (viewer st) v (timers st) (loc_system st) (loc_username st).
Definition set_timers (v : list nat) (st : state) : state :=
  State (store st) (calls st) (files st) (out_file st) (stdout st) (stderr st)
    (label st) (viewer st) (clipboard st) v (loc_system st) (loc_username st).
Definition set_loc_system (v : option string) (st : state) : state :=
  State (store st) (calls st) (files st) (out_file st) (stdout st) (stderr st)
    (label st) (viewer st) (clipboard st) (timers st) v (loc_username st).
Definition set_loc_username (v : option string) (st : state) : state :=
  State (store st) (calls st) (files st) (out_file st) (stdout st) (stderr st)
    (label st) (viewer st) (clipboard st) (timers st) (loc_system st) v.

(** ** External collaborators *)

(** [print(msg)] and [print(msg, file=sys.stderr)] *)
Definition print (msg : string) : M unit :=
  modify (λ st, set_stdout (stdout st ++ [msg]) st).
Definition print_stderr (msg : string) : M unit :=
  modify (λ st, set_stderr (stderr st ++ [msg]) st).

Module keyring.

(** The description a backend gives to [PasswordDeleteError] when the
    entry does not exist.  Backends word it differently; the statements
    below refer to it by this name only. *)
Definition not_found : string := "Password not found".

Definition log_call (c : call) : M unit :=
  modify (λ st, set_calls (calls st ++ [c]) st).

Definition set_password (service username password : string) : M unit :=
  log_call (SetPassword service username password);;
  modify (λ st, set_store (<[(service, username) := password]> (store st)) st).

Definition get_password (service username : string) : M (option string) :=
  log_call (GetPassword service username);;
  gets (λ st, store st !! (service, username)).

Definition delete_password (service username : string) : M unit :=
  log_call (DeletePassword service username);;
  found ← gets (λ st, store st !! (service, username));
  match found with
  | Some _ => modify (λ st, set_store (delete (service, username) (store st)) st)
  | None => raise (PasswordDeleteError not_found)
  end.

End keyring.

Module pyperclip.
(** [pyperclip.copy(text)] *)
Definition copy (text : string) : M unit := modify (set_clipboard text).
End pyperclip.

(** ** Values of a CSV row and [csv.DictReader] *)

(** A cell of a [DictReader] row: a string, or [None] (the [restval]) when
    the line has fewer fields than the header. *)
Inductive value : Type :=
| VNone
| VStr (s : string).

(** [bool(v)] *)
Definition truth (v : value) : bool :=
  match v with VNone => false | VStr s => Str.truth s end.

(** [v.strip()] *)
Definition strip (v : value) : M string :=
  match v with
  | VStr s => mret (Str.strip s)
  | VNone => raise (AttributeError "'NoneType' object has no attribute 'strip'")
  end.

Module DictReader.

(** [reader.fieldnames]: the first record of the file, [None] for an empty
    file. *)
Definition fieldnames (file : list (list string)) : option (list string) :=
  head file.

(** One row: [dict(zip(fieldnames, record))], then [restval] for the keys
    the record is too short for.  Fields beyond the header go under the
    key [None], which no string key reads. *)
Fixpoint row (d : gmap string value) (keys record : list string)
  : gmap string value :=
  match keys, record with
  | [], _ => d
  | k :: keys', [] => row (<[k := VNone]> d) keys' []
  | k :: keys', x :: record' => row (<[k := VStr x]> d) keys' record'
  end.

(** The rows the reader yields: blank lines are skipped. *)
Definition rows (file : list (list string)) : list (gmap string value) :=
  match file with
  | [] => []
  | keys :: records =>
      row ∅ keys <$> filter (λ r, r ≠ []) records
  end.

End DictReader.

(** [row.get(key)] and [row.get(key, default)] *)
Definition get (row : gmap string value) (key : string) : value :=
  default VNone (row !! key).
Definition get_default (row : gmap string value) (key : string) (d : value)
  : value :=
  default d (row !! key).

(** [row[key]] *)
Definition getitem (row : gmap string value) (key : string) : M value :=
  match row !! key with
  | Some v => mret v
  | None => raise (KeyError ("'" +:+ key +:+ "'"))
  end.

(** ** [src/v2.0/keyring_tools.py] *)

Definition MAX_SYSTEM_LENGTH : nat := 254.
Definition MAX_USERNAME_LENGTH : nat := 32.
Definition MAX_PASSWORD_LENGTH : nat := 400.

(** [os.path.basename(RESULTS_FILE)] *)
Definition results_filename : string := "keyring_results.txt".

(** [clear_clipboard_after(delay)] starts a daemon thread and returns.  The
    thread is recorded by its delay; [clear] is what it runs once the delay
    has passed. *)
Definition clear : M unit := pyperclip.copy EmptyString.

Definition clear_clipboard_after (delay : nat) : M unit :=
  modify (λ st, set_timers (timers st ++ [delay]) st).

(** [if cond: raise e] *)
Definition raise_if (cond : bool) (e : exception) : M unit :=
  if cond then raise e else mret tt.

(** Reading a local of [process_bulk_csv] that may not be assigned yet.
    The description is the one of Python 3.11 and later. *)
Definition local (name : string) (v : option string) : M string :=
  match v with
  | Some s => mret s
  | None =>
      raise (UnboundLocalError
               ("cannot access local variable '" +:+ name
                +:+ "' where it is not associated with a value"))
  end.

(** [update_status(msg, is_error, display)]; [display] is [true] when a
    label was passed (the form) and [false] on the command line. *)
Definition update_status (msg : string) (is_error display : bool) : M unit :=
  if display
  then modify (λ st, set_label (label st ++ [(msg, is_error)]) st)
  else if is_error then print_stderr msg else print msg.

(** [out_file.write(f"{line}\n")] *)
Definition write (line : string) : M unit :=
  modify (λ st, set_out_file (out_file st ++ [line]) st).

(** [str(result)] inside an f-string, for what [get_password] returned. *)
Definition format (result : option string) : string :=
  match result with Some s => s | None => "None" end.

(** Lines 141 to 155: the required fields, the trimmed locals, and the
    length checks.  The locals [system] and [username] are assigned as soon
    as they are computed, before any length check. *)
Definition validate (row : gmap string value)
  : M (string * string * string * string) :=
  raise_if (negb (truth (get row "function")) || negb (truth (get row "system"))
            || negb (truth (get row "username")))
    (ValueError "Missing required field(s): function, system, or username");;
  function ← (v ← getitem row "function"; s ← strip v; mret (Str.lower s));
  system ← (v ← getitem row "system"; strip v);
  modify (set_loc_system (Some system));;
  username ← (v ← getitem row "username"; strip v);
  modify (set_loc_username (Some username));;
  password ← strip (get_default row "password" (VStr EmptyString));
  raise_if (MAX_SYSTEM_LENGTH <? Str.len system)
    (ValueError ("System name must be ≤" +:+ pretty MAX_SYSTEM_LENGTH
                 +:+ " characters"));;
  raise_if (MAX_USERNAME_LENGTH <? Str.len username)
    (ValueError ("Username must be ≤" +:+ pretty MAX_USERNAME_LENGTH
                 +:+ " characters"));;
  raise_if (bool_decide (function = "set")
            && (MAX_PASSWORD_LENGTH <? Str.len password))
    (ValueError ("Password must be ≤" +:+ pretty MAX_PASSWORD_LENGTH
                 +:+ " characters"));;
  mret (function, system, username, password).

(** Lines 157 to 170: the operation on the store, and the text of the
    result. *)
Definition dispatch (function system username password : string) : M string :=
  if bool_decide (function = "set") then
    keyring.set_password system username password;;
    mret ("Set password for " +:+ system +:+ "/" +:+ username)
  else if bool_decide (function = "get") then
    result ← keyring.get_password system username;
    mret ("Get password for " +:+ system +:+ "/" +:+ username +:+ ": "
          +:+ format result)
  else if bool_decide (function = "del") then
    keyring.delete_password system username;;
    mret ("Deleted password for " +:+ system +:+ "/" +:+ username)
  else
    raise (ValueError ("Invalid function: " +:+ function)).

(** Lines 140 to 173: the [try] block of one row. *)
Definition row_try (display : bool) (row : gmap string value) : M unit :=
  '(function, system, username, password) ← validate row;
  result ← dispatch function system username password;
  update_status ("SUCCESS: " +:+ result) false display;;
  write ("SUCCESS: " +:+ result).

(** Lines 175 to 178: the handler of one row.  It reads the locals [system]
    and [username] of the enclosing function. *)
Definition row_except (display : bool) (e : exception) : M unit :=
  system ← (v ← gets loc_system; local "system" v);
  username ← (v ← gets loc_username; local "username" v);
  let error_msg :=
    "ERROR: " +:+ system +:+ "/" +:+ username +:+ " - " +:+ str e in
  write error_msg;;
  update_status error_msg true display.

(** Lines 139 to 178: one turn of the loop. *)
Definition row_step (display : bool) (row : gmap string value) : M unit :=
  try_except (row_try display row) (except_Exception (row_except display)).

(** Line 138: the loop over the rows. *)
Fixpoint for_rows (display : bool) (rows : list (gmap string value)) : M unit :=
  match rows with
  | [] => mret tt
  | row :: rows' => row_step display row;; for_rows display rows'
  end.

(** The header line 134 asks for. *)
Definition HEADER : list string := ["function"; "system"; "username"; "password"].

(** [open(file_path, mode="r")] *)
Definition open_read (file_path : string) : M (list (list string)) :=
  found ← gets (λ st, files st !! file_path);
  match found with
  | Some file => mret file
  | None =>
      raise (FileNotFoundError
               ("[Errno 2] No such file or directory: '" +:+ file_path +:+ "'"))
  end.

(** [open(output_file, mode="w")]: the results file starts empty. *)
Definition open_write : M unit := modify (set_out_file []).

(** Launching the platform's viewer on the results file. *)
Definition launch_viewer : M unit :=
  v ← gets viewer;
  match v with
  | None => mret tt
  | Some m => raise (FileNotFoundError m)
  end.

(** A call of [process_bulk_csv] starts with its locals unassigned. *)
Definition unassigned (st : state) : state :=
  set_loc_username None (set_loc_system None st).

(** Lines 127 to 203.  Line 128 asks [keyring.get_keyring()] for the name of
    the backend, for a debug message that [DEBUG = False] leaves unprinted;
    it is no operation on the store and is left out.  Opening the results
    file always succeeds here. *)
Definition process_bulk_csv (file_path : string) (result_display : bool)
  : M unit :=
  modify unassigned;;
  try_except
    (csv_file ← open_read file_path;
     open_write;;
     raise_if (bool_decide (DictReader.fieldnames csv_file ≠ Some HEADER))
       (ValueError "CSV must have headers: function,system,username,password");;
     for_rows result_display (DictReader.rows csv_file);;
     update_status ("Bulk processing complete." +:+ Str.newline
                    +:+ "Results saved to " +:+ Str.quote +:+ "./"
                    +:+ results_filename +:+ Str.quote)
       false result_display;;
     (if result_display then
        try_except launch_viewer
          (except_Exception (λ e,
             update_status ("Failed to auto-open results: " +:+ str e)
               true result_display))
      else mret tt);;
     pyperclip.copy EmptyString;;
     clear_clipboard_after 1)
    (except_Exception (λ e,
       update_status ("Failed to process CSV: " +:+ str e) true result_display;;
       if result_display then mret tt else sys_exit 1)).

(** The namespace [argparse] hands to [cli_handler]: the sub-command with
    its positional arguments, and the value of [--bulk]. *)
Inductive command : Type :=
| CmdSet (system username password : string)
| CmdGet (system username : string)
| CmdDel (system username : string).

Record args : Type := Args {
  bulk : option string;
  cmd : option command
}.

(** [parser.print_help()]: the usage text is argparse's own; only the fact
    that something is printed is kept. *)
Definition print_help : M unit := print "usage: keyring_tools.py".

(** Lines 240 to 261 of [cli_handler], after the arguments are parsed. *)
Definition cli_handler (a : args) : M unit :=
  match bulk a, cmd a with
  | Some (String c p), _ => process_bulk_csv (String c p) false
  | _, Some command =>
      try_except
        match command with
        | CmdSet system username password =>
            keyring.set_password system username password;;
            print ("Password set for " +:+ Str.quote +:+ system +:+ "/"
                   +:+ username +:+ Str.quote +:+ ".")
        | CmdGet system username =>
            found ← keyring.get_password system username;
            let result :=
              match found with
              | Some (String c p) => String c p
              | _ => "No password found"
              end in
            print ("Get password for " +:+ system +:+ "/" +:+ username +:+ ": "
                   +:+ result)
        | CmdDel system username =>
            keyring.delete_password system username;;
            print ("Credential store " +:+ Str.quote +:+ system +:+ "/"
                   +:+ username +:+ Str.quote +:+ " has been deleted.")
        end
        (λ e,
           match command with
           | CmdSet system username _ | CmdGet system username
           | CmdDel system username =>
               if is_PasswordDeleteError e then
                 print "ERROR: Failed to delete credential store.";;
                 print ("Credential store " +:+ Str.quote +:+ system +:+ Str.quote
                        +:+ " may not exist, or username " +:+ Str.quote
                        +:+ username +:+ Str.quote +:+ " may be incorrect.")
               else if is_Exception e then
                 print_stderr ("Error: " +:+ str e);;
                 sys_exit 1
               else raise e
           end)
  | _, None => print_help;; sys_exit 1
  end.

(** The main module of the script run with arguments: [cli_handler()], and
    the status the interpreter exits with. *)
Definition main (a : args) (st : state) : Z * state :=
  let (r, st') := cli_handler a st in (exit_code r, st').

(** The form's [copy_to_clipboard]; [password] is the text of the password
    field. *)
Module KeyringApp.

Definition set_result_display (msg : string) (is_error : bool) : M unit :=
  modify (λ st, set_label (label st ++ [(msg, is_error)]) st).

Definition copy_to_clipboard (password : string) : M unit :=
  if negb (Str.truth password) then
    set_result_display "No password to copy" true
  else
    try_except
      (pyperclip.copy password;;
       set_result_display ("Password copied" +:+ Str.newline
                           +:+ "(auto clear in 30s)") false;;
       clear_clipboard_after 30)
      (except_Exception (λ e,
         set_result_display ("Clipboard error: " +:+ str e) true)).

End KeyringApp.

(** ** [src/v1.0]: one script per operation *)

Module V1.

(** [set_cred.py], [main] *)
Definition set_cred (system username password : string) : M unit :=
  try_except
    (keyring.set_password system username password;;
     print ("Credential store " +:+ Str.quote +:+ system +:+ Str.quote
            +:+ " with username " +:+ Str.quote +:+ username +:+ Str.quote
            +:+ " and password " +:+ Str.quote +:+ password +:+ Str.quote
            +:+ " successfully created."))
    (λ _, print "Ugh, something bad happened").

(** [get_cred.py], [main]; the script returns what the store answered. *)
Definition get_cred (system username : string) : M (option string) :=
  result ← keyring.get_password system username;
  match result with
  | None =>
      print ("No credential store or password found: " +:+ system +:+ " / "
             +:+ username)
  | Some password => print password
  end;;
  mret result.

(** [del_cred.py], [main] *)
Definition del_cred (system username : string) : M unit :=
  try_except
    (keyring.delete_password system username;;
     print ("Credential store " +:+ Str.quote +:+ system +:+ Str.quote
            +:+ " has been deleted."))
    (λ e,
       if is_PasswordDeleteError e then
         print "Failed to delete credential store.";;
         print ("Credential store " +:+ Str.quote +:+ system +:+ Str.quote
                +:+ " may not exist, or username " +:+ Str.quote +:+ username
                +:+ Str.quote +:+ " may be incorrect.")
       else if is_KeyringError e then
         print "Error: Base Error class for all exceptions in keyring lib"
       else print "Ugh, something bad happened").

(** The status the interpreter exits with after a script's [main]. *)
Definition run {A : Type} (script : M A) (st : state) : Z * state :=
  let (r, st') := script st in (exit_code r, st').

End V1.

(** ** Initial states *)

(** A fresh process: nothing printed, no store operation issued, no local
    assigned, an empty clipboard. *)
Definition fresh (secrets : gmap (string * string) string)
    (fs : gmap string (list (list string))) : state :=
  State secrets [] fs [] [] [] [] None EmptyString [] None None.

(** The row [csv.DictReader] builds from one record under the expected
    header. *)
Definition row_of (record : list string) : gmap string value :=
  DictReader.row ∅ HEADER record.

(** The state after lines 145 and 146 assigned the two locals. *)
Definition assigned (system username : string) (st : state) : state :=
  set_loc_username (Some username) (set_loc_system (Some system) st).

(** The state after [update_status(msg, is_error, display)]. *)
Definition reported (msg : string) (is_error display : bool) (st : state)
  : state :=
  if display then set_label (label st ++ [(msg, is_error)]) st
  else if is_error then set_stderr (stderr st ++ [msg]) st
  else set_stdout (stdout st ++ [msg]) st.

(** The state after a row recorded a Success outcome: the status is
    reported, then the line is written (lines 172 and 173). *)
Definition success (display : bool) (line : string) (st : state) : state :=
  set_out_file (out_file (reported line false display st) ++ [line])
    (reported line false display st).

(** The state after a row recorded a Failure outcome: the line is written,
    then the status is reported (lines 177 and 178). *)
Definition failure (display : bool) (line : string) (st : state) : state :=
  reported line true display (set_out_file (out_file st ++ [line]) st).

(** The state after a store operation was issued; after
    [keyring.set_password] stored a password; after
    [keyring.delete_password] removed an entry. *)
Definition called (c : call) (st : state) : state :=
  set_calls (calls st ++ [c]) st.

Definition stored (system username password : string) (st : state) : state :=
  set_store (<[(system, username) := password]> (store st))
    (called (SetPassword system username password) st).

Definition deleted (system username : string) (st : state) : state :=
  set_store (delete (system, username) (store st))
    (called (DeletePassword system username) st).

(** ** The form: [KeyringApp]

    The widgets the methods read and write, and the methods themselves.
    The result label is the [label] of the state: a text set on it is
    recorded with its error style (the red style sheet), as
    [update_status] does.  Qt runs a slot at once when a signal it is
    connected to is emitted; [textChanged] is emitted when a text really
    changes and [toggled] when a checked state really changes.  The
    connections are those of [init_ui], lines 505 to 514. *)
Module Form.

(** The three radio buttons of the function group: one is checked. *)
Inductive radio : Type := RadioSet | RadioGet | RadioDel.

Global Instance radio_eq_dec : EqDecision radio.
Proof. solve_decision. Defined.

Record window : Type := Window {
  (** texts of the three line edits *)
  system_text : string;
  username_text : string;
  password_text : string;
  function_radio : radio;
  (** [password.isEnabled()] *)
  password_enabled : bool;
  (** echo mode of the password field: [true] is [Normal], [false] is
      [Password] *)
  password_shown : bool;
  (** the reveal button: checked state, and whether its icon is the
      detailed view (shown) or the contents view (hidden) *)
  reveal_checked : bool;
  reveal_detailed : bool;
  copy_enabled : bool;
  (** the Go button: enabled state, and whether it carries the green
      style sheet of lines 598 to 614 or the empty one *)
  go_enabled : bool;
  go_styled : bool;
  (** [close()] and [QApplication.quit()] were called *)
  closed : bool
}.

Definition set_system_text (v : string) (w : window) : window :=
  Window v (username_text w) (password_text w) (function_radio w)
    (password_enabled w) (password_shown w) (reveal_checked w)
    (reveal_detailed w) (copy_enabled w) (go_enabled w) (go_styled w)
    (closed w).
Definition set_username_text (v : string) (w : window) : window :=
  Window (system_text w) v (password_text w) (function_radio w)
    (password_enabled w) (password_shown w) (reveal_checked w)
    (reveal_detailed w) (copy_enabled w) (go_enabled w) (go_styled w)
    (closed w).
Definition set_password_text (v : string) (w : window) : window :=
  Window (system_text w) (username_text w) v (function_radio w)
    (password_enabled w) (password_shown w) (reveal_checked w)
    (reveal_detailed w) (copy_enabled w) (go_enabled w) (go_styled w)
    (closed w).
Definition set_function_radio (v : radio) (w : window) : window :=
  Window (system_text w) (username_text w) (password_text w) v
    (password_enabled w) (password_shown w) (reveal_checked w)
    (reveal_detailed w) (copy_enabled w) (go_enabled w) (go_styled w)
    (closed w).
Definition set_password_enabled (v : bool) (w : window) : window :=
  Window (system_text w) (username_text w) (password_text w)
    (function_radio w) v (password_shown w) (reveal_checked w)
    (reveal_detailed w) (copy_enabled w) (go_enabled w) (go_styled w)
    (closed w).
Definition set_password_shown (v : bool) (w : window) : window :=
  Window (system_text w) (username_text w) (password_text w)
    (function_radio w) (password_enabled w) v (reveal_checked w)
    (reveal_detailed w) (copy_enabled w) (go_enabled w) (go_styled w)
    (closed w).
Definition set_reveal_checked (v : bool) (w : window) : window :=
  Window (system_text w) (username_text w) (password_text w)
    (function_radio w) (password_enabled w) (password_shown w) v
    (reveal_detailed w) (copy_enabled w) (go_enabled w) (go_styled w)
    (closed w).
Definition set_reveal_detailed (v : bool) (w : window) : window :=
  Window (system_text w) (username_text w) (password_text w)
    (function_radio w) (password_enabled w) (password_shown w)
    (reveal_checked w) v (copy_enabled w) (go_enabled w) (go_styled w)
    (closed w).
Definition set_copy_enabled (v : bool) (w : window) : window :=
  Window (system_text w) (username_text w) (password_text w)
    (function_radio w) (password_enabled w) (password_shown w)
    (reveal_checked w) (reveal_detailed w) v (go_enabled w) (go_styled w)
    (closed w).
Definition set_go_enabled (v : bool) (w : window) : window :=
  Window (system_text w) (username_text w) (password_text w)
    (function_radio w) (password_enabled w) (password_shown w)
    (reveal_checked w) (reveal_detailed w) (copy_enabled w) v (go_styled w)
    (closed w).
Definition set_go_styled (v : bool) (w : window) : window :=
  Window (system_text w) (username_text w) (password_text w)
    (function_radio w) (password_enabled w) (password_shown w)
    (reveal_checked w) (reveal_detailed w) (copy_enabled w) (go_enabled w) v
    (closed w).
Definition set_closed (v : bool) (w : window) : window :=
  Window (system_text w) (username_text w) (password_text w)
    (function_radio w) (password_enabled w) (password_shown w)
    (reveal_checked w) (reveal_detailed w) (copy_enabled w) (go_enabled w)
    (go_styled w) v.

(** Statements of a method: the widgets next to the state of the
    program. *)
Definition G (A : Type) : Type :=
  window * state → (exception + A) * (window * state).

Global Instance G_ret : MRet G := λ A x ws, (inr x, ws).

Global Instance G_bind : MBind G := λ A B f m ws,
  match m ws with
  | (inr x, ws') => f x ws'
  | (inl e, ws') => (inl e, ws')
  end.

(** A statement that does not touch the widgets. *)
Definition lift {A : Type} (m : M A) : G A :=
  λ ws, match m (snd ws) with (r, st') => (r, (fst ws, st')) end.

Definition read {A : Type} (f : window → A) : G A := λ ws, (inr (f (fst ws)), ws).

Definition widget (f : window → window) : G unit :=
  λ ws, (inr tt, (f (fst ws), snd ws)).

Definition try_except {A : Type} (body : G A) (handler : exception → G A)
  : G A :=
  λ ws,
    match body ws with
    | (inl e, ws') => handler e ws'
    | r => r
    end.

Definition except_Exception {A : Type} (h : exception → G A)
  : exception → G A :=
  λ e, if is_Exception e then h e else (λ ws, (inl e, ws)).

(** [result_display.setText(text)] followed by [setStyleSheet]. *)
Definition set_result (text : string) (is_error : bool) : G unit :=
  lift (KeyringApp.set_result_display text is_error).

(** Lines 577 to 636. *)
Definition validate_inputs : G unit :=
  system ← read (λ w, Str.strip (system_text w));
  username ← read (λ w, Str.strip (username_text w));
  password ← read (λ w, Str.strip (password_text w));
  let system_valid :=
    Str.truth system && (Str.len system <=? MAX_SYSTEM_LENGTH) in
  let username_valid :=
    Str.truth username && (Str.len username <=? MAX_USERNAME_LENGTH) in
  is_set ← read (λ w, bool_decide (function_radio w = RadioSet));
  let password_valid :=
    if (is_set : bool)
    then Str.truth password && (Str.len password <=? MAX_PASSWORD_LENGTH)
    else true in
  (if system_valid && username_valid && password_valid
   then widget (set_go_enabled true);; widget (set_go_styled true)
   else widget (set_go_enabled false);; widget (set_go_styled false));;
  let feedback :=
    (if Str.truth system && negb system_valid
     then ["System name must be ≤" +:+ pretty MAX_SYSTEM_LENGTH +:+ " chars"]
     else [])
    ++ (if Str.truth username && negb username_valid
        then ["Username must be ≤" +:+ pretty MAX_USERNAME_LENGTH +:+ " chars"]
        else [])
    ++ (if is_set && Str.truth password && negb password_valid
        then ["Password must be ≤" +:+ pretty MAX_PASSWORD_LENGTH +:+ " chars"]
        else []) in
  match feedback with
  | _ :: _ => set_result (String.concat Str.newline feedback) true
  | [] =>
      if negb (Str.truth system && Str.truth username)
         || (is_set && negb (Str.truth password))
      then set_result "Fill all required fields" false
      else set_result "Ready" false
  end.

(** [password.setText(text)] and [password.clear()]: the text is set and,
    when it changed, [textChanged] runs [validate_inputs] (line 510). *)
Definition password_setText (text : string) : G unit :=
  old ← read password_text;
  if bool_decide (text = old) then mret tt
  else widget (set_password_text text);; validate_inputs.

(** Lines 570 to 575. *)
Definition update_ui_state : G unit :=
  is_set ← read (λ w, bool_decide (function_radio w = RadioSet));
  widget (set_password_enabled is_set);;
  widget (set_copy_enabled false);;
  password_setText EmptyString.

(** Lines 656 to 658, the branch of [toggle_password_visibility] for
    [checked = False]: the password is masked again. *)
Definition hide_password : G unit :=
  widget (set_password_shown false);;
  widget (set_reveal_detailed false).

(** [reveal_btn.setChecked(False)]: when the button was checked,
    [toggled] runs [toggle_password_visibility(False)] (line 438), which
    is [hide_password]. *)
Definition reveal_setChecked_False : G unit :=
  checked ← read reveal_checked;
  if (checked : bool) then widget (set_reveal_checked false);; hide_password
  else mret tt.

(** Lines 638 to 658. *)
Definition toggle_password_visibility (checked : bool) : G unit :=
  text ← read password_text;
  if checked && negb (Str.truth text) then reveal_setChecked_False
  else if checked then
    widget (set_password_shown true);; widget (set_reveal_detailed true)
  else hide_password.

(** Lines 660 to 675. *)
Definition copy_to_clipboard : G unit :=
  text ← read password_text;
  lift (KeyringApp.copy_to_clipboard text).

(** Lines 677 to 690. *)
Definition clear_sensitive_fields : G unit :=
  password_setText EmptyString;;
  widget (set_password_shown false);;
  reveal_setChecked_False;;
  widget (set_reveal_detailed false);;
  try_except (lift (pyperclip.copy EmptyString))
    (except_Exception (λ e, lift (print_stderr ("Clipboard error: " +:+ str e))));;
  widget (set_copy_enabled false);;
  set_result EmptyString false.

(** Lines 692 to 732. *)
Definition execute_action : G unit :=
  system ← read (λ w, Str.strip (system_text w));
  username ← read (λ w, Str.strip (username_text w));
  password ← read (λ w, Str.strip (password_text w));
  try_except
    (function ← read function_radio;
     match function with
     | RadioGet =>
         result ← lift (keyring.get_password system username);
         match result with
         | Some (String c r) =>
             password_setText (String c r);;
             set_result "Password retrieved successfully" false;;
             widget (set_copy_enabled true)
         | _ =>
             set_result "No password found" true;;
             widget (set_copy_enabled false)
         end
     | RadioDel =>
         lift (keyring.delete_password system username);;
         set_result "Password deleted successfully" false;;
         widget (set_copy_enabled false)
     | RadioSet =>
         if negb (Str.truth password) then
           set_result "Error: Password cannot be empty" true
         else
           lift (keyring.set_password system username password);;
           set_result "Password set successfully" false;;
           widget (set_copy_enabled false)
     end)
    (except_Exception (λ e, set_result ("Error: " +:+ str e) true)).

(** Lines 734 to 741.  No attribute [clipboard_timer] is ever assigned, so
    the test of line 736 fails. *)
Definition secure_exit : G unit :=
  clear_sensitive_fields;;
  widget (set_closed true).

(** Lines 755 to 760; [file_path] is what the file dialog returned, the
    empty string when it was cancelled. *)
Definition process_bulk_csv (file_path : string) : G unit :=
  if Str.truth file_path then lift (process_bulk_csv file_path true)
  else mret tt.

(** The window as [init_ui] leaves it before lines 516 and 517: empty
    fields, Get selected, the password field disabled and masked. *)
Definition initial : window :=
  Window EmptyString EmptyString EmptyString RadioGet false false false false
    false true false false.

End Form.

(** What [validate_inputs] decides for a window: whether Go is enabled, and
    the text and error style it sets on the label. *)
Definition form_valid (w : Form.window) : bool :=
  let system := Str.strip (Form.system_text w) in
  let username := Str.strip (Form.username_text w) in
  let password := Str.strip (Form.password_text w) in
  Str.truth system && (Str.len system <=? MAX_SYSTEM_LENGTH)
  && (Str.truth username && (Str.len username <=? MAX_USERNAME_LENGTH))
  && (if bool_decide (Form.function_radio w = Form.RadioSet)
      then Str.truth password && (Str.len password <=? MAX_PASSWORD_LENGTH)
      else true).

(** The state after a text was set on the label. *)
Definition shown (text : string) (is_error : bool) (st : state) : state :=
  set_label (label st ++ [(text, is_error)]) st.

(** The window after [validate_inputs] set the Go button. *)
Definition go_set (v : bool) (w : Form.window) : Form.window :=
  Form.set_go_styled v (Form.set_go_enabled v w).

(** A store operation whose arguments respect the three limits. *)
Definition within_limits (c : call) : Prop :=
  match c with
  | SetPassword system username password =>
      Str.len system ≤ MAX_SYSTEM_LENGTH
      ∧ Str.len username ≤ MAX_USERNAME_LENGTH
      ∧ Str.len password ≤ MAX_PASSWORD_LENGTH
  | GetPassword system username | DeletePassword system username =>
      Str.len system ≤ MAX_SYSTEM_LENGTH
      ∧ Str.len username ≤ MAX_USERNAME_LENGTH
  end.

(** The pair a row names: its trimmed system and username cells (the empty
    string for a cell that is missing). *)
Definition cell (row : gmap string value) (key : string) : string :=
  match get row key with VStr s => Str.strip s | VNone => EmptyString end.

Definition row_key (row : gmap string value) : string * string :=
  (cell row "system", cell row "username").

(** Whether a line of the results file records a Failure outcome. *)
Definition is_error_line (line : string) : bool := String.prefix "ERROR: " line.

(** Two states that differ at most in the store, in the operations issued
    and in the two locals. *)
Definition quiet (st st' : state) : Prop :=
  out_file st' = out_file st ∧ stdout st' = stdout st ∧ stderr st' = stderr st
  ∧ label st' = label st ∧ clipboard st' = clipboard st
  ∧ timers st' = timers st ∧ files st' = files st ∧ viewer st' = viewer st.

(** [logged display lines st st']: from [st] to [st'] the lines were added
    to the results file and each was reported (on the label in the form;
    on standard output or standard error on the command line), and nothing
    else of the surroundings changed. *)
Definition logged (display : bool) (lines : list string) (st st' : state)
  : Prop :=
  out_file st' = out_file st ++ lines
  ∧ label st' =
    label st ++ (if display then (λ l, (l, is_error_line l)) <$> lines else [])
  ∧ stdout st' =
    stdout st ++ (if display then []
                  else List.filter (λ l, negb (is_error_line l)) lines)
  ∧ stderr st' =
    stderr st ++ (if display then [] else List.filter is_error_line lines)
  ∧ clipboard st' = clipboard st ∧ timers st' = timers st
  ∧ files st' = files st ∧ viewer st' = viewer st.

(** * Properties *)

(** ** Running the monad *)

Lemma run_bind {A B : Type} (m : M A) (k : A → M B) (st : state) :
  (m ≫= k) st =
  match m st with
  | (inr x, st') => k x st'
  | (inl e, st') => (inl e, st')
  end.
Proof. reflexivity. Qed.

Lemma run_bind_ok {A B : Type} (m : M A) (k : A → M B) st x st' :
  m st = (inr x, st') → (m ≫= k) st = k x st'.
Proof. intros H. rewrite run_bind, H. reflexivity. Qed.

Lemma run_bind_raise {A B : Type} (m : M A) (k : A → M B) st e st' :
  m st = (inl e, st') → (m ≫= k) st = (inl e, st').
Proof. intros H. rewrite run_bind, H. reflexivity. Qed.

Lemma run_try_ok {A : Type} (m : M A) h st x st' :
  m st = (inr x, st') → try_except m h st = (inr x, st').
Proof. intros H. unfold try_except. rewrite H. reflexivity. Qed.

Lemma run_try_raise {A : Type} (m : M A) h st e st' :
  m st = (inl e, st') → try_except m h st = h e st'.
Proof. intros H. unfold try_except. rewrite H. reflexivity. Qed.

(** Unfolds the monad's operations and reduces the matches they leave. *)
Ltac run_monad :=
  repeat progress
    (unfold mbind, M_bind, mret, M_ret, modify, gets, raise_if, sys_exit,
       raise, strip;
     cbv beta iota).

(** ** The cells of a row with at least four fields *)

(** Under the expected header, the reader's rows are the [row_of] of the
    records that are not blank. *)
Lemma rows_of_file (records : list (list string)) :
  DictReader.rows (HEADER :: records)
  = row_of <$> filter (λ r, r ≠ []) records.
Proof. reflexivity. Qed.

Section Cells.

Variables f s u p : string.
Variable extra : list string.

Lemma row_function : row_of (f :: s :: u :: p :: extra) !! "function" = Some (VStr f).
Proof. reflexivity. Qed.

Lemma row_system : row_of (f :: s :: u :: p :: extra) !! "system" = Some (VStr s).
Proof. reflexivity. Qed.

Lemma row_username : row_of (f :: s :: u :: p :: extra) !! "username" = Some (VStr u).
Proof. reflexivity. Qed.

Lemma row_password : row_of (f :: s :: u :: p :: extra) !! "password" = Some (VStr p).
Proof. reflexivity. Qed.

End Cells.

(** ** Validation of one row *)

Section Validate.

Variables f s u p : string.
Variable extra : list string.

Local Abbreviation row := (row_of (f :: s :: u :: p :: extra)).

(** A row whose three required cells are non-empty and whose trimmed
    cells respect the bounds passes; the locals are assigned. *)
Lemma validate_ok (st : state) :
  Str.truth f = true → Str.truth s = true → Str.truth u = true →
  Str.len (Str.strip s) ≤ MAX_SYSTEM_LENGTH →
  Str.len (Str.strip u) ≤ MAX_USERNAME_LENGTH →
  (Str.lower (Str.strip f) = "set" →
   Str.len (Str.strip p) ≤ MAX_PASSWORD_LENGTH) →
  validate row st =
  (inr (Str.lower (Str.strip f), Str.strip s, Str.strip u, Str.strip p),
   assigned (Str.strip s) (Str.strip u) st).
Proof.
  intros Hf Hs Hu Ls%Nat.ltb_ge Lu%Nat.ltb_ge Lp.
  assert (bool_decide (Str.lower (Str.strip f) = "set")
          && (MAX_PASSWORD_LENGTH <? Str.len (Str.strip p)) = false) as Lp'.
  { case_bool_decide as E; [|reflexivity]. apply Lp in E.
    apply Nat.ltb_ge in E. rewrite E. reflexivity. }
  unfold validate, get, getitem, get_default.
  rewrite row_function, row_system, row_username, row_password.
  cbn [default from_option id truth]. rewrite Hf, Hs, Hu. cbn [negb orb].
  run_monad. rewrite Ls, Lu, Lp'. reflexivity.
Qed.

(** The check of line 150 comes first among the length checks. *)
Lemma validate_system_too_long (st : state) :
  Str.truth f = true → Str.truth s = true → Str.truth u = true →
  MAX_SYSTEM_LENGTH < Str.len (Str.strip s) →
  validate row st =
  (inl (ValueError "System name must be ≤254 characters"),
   assigned (Str.strip s) (Str.strip u) st).
Proof.
  intros Hf Hs Hu Ls%Nat.ltb_lt.
  unfold validate, get, getitem, get_default.
  rewrite row_function, row_system, row_username, row_password.
  cbn [default from_option id truth]. rewrite Hf, Hs, Hu. cbn [negb orb].
  run_monad. rewrite Ls. reflexivity.
Qed.

Lemma validate_username_too_long (st : state) :
  Str.truth f = true → Str.truth s = true → Str.truth u = true →
  Str.len (Str.strip s) ≤ MAX_SYSTEM_LENGTH →
  MAX_USERNAME_LENGTH < Str.len (Str.strip u) →
  validate row st =
  (inl (ValueError "Username must be ≤32 characters"),
   assigned (Str.strip s) (Str.strip u) st).
Proof.
  intros Hf Hs Hu Ls%Nat.ltb_ge Lu%Nat.ltb_lt.
  unfold validate, get, getitem, get_default.
  rewrite row_function, row_system, row_username, row_password.
  cbn [default from_option id truth]. rewrite Hf, Hs, Hu. cbn [negb orb].
  run_monad. rewrite Ls, Lu. reflexivity.
Qed.

End Validate.

(** A row with an empty or missing required cell stops at line 142, before
    any local is assigned. *)
Lemma validate_missing (row : gmap string value) (st : state) :
  truth (get row "function") = false ∨ truth (get row "system") = false
  ∨ truth (get row "username") = false →
  validate row st =
  (inl (ValueError "Missing required field(s): function, system, or username"),
   st).
Proof.
  intros H. unfold validate.
  assert (negb (truth (get row "function")) || negb (truth (get row "system"))
          || negb (truth (get row "username")) = true) as ->.
  { destruct H as [-> | [-> | ->]]; cbn [negb orb];
      rewrite ?orb_true_r; reflexivity. }
  reflexivity.
Qed.

(** ** The store *)

Section Store.

Variables system username : string.

Lemma set_password_run password st :
  keyring.set_password system username password st =
  (inr tt, stored system username password st).
Proof. reflexivity. Qed.

Lemma get_password_run st :
  keyring.get_password system username st =
  (inr (store st !! (system, username)),
   called (GetPassword system username) st).
Proof. reflexivity. Qed.

Lemma delete_password_absent st :
  store st !! (system, username) = None →
  keyring.delete_password system username st =
  (inl (PasswordDeleteError keyring.not_found),
   called (DeletePassword system username) st).
Proof.
  intros H. unfold keyring.delete_password, keyring.log_call. run_monad.
  cbn [store set_calls]. rewrite H. reflexivity.
Qed.

Lemma delete_password_present password st :
  store st !! (system, username) = Some password →
  keyring.delete_password system username st =
  (inr tt, deleted system username st).
Proof.
  intros H. unfold keyring.delete_password, keyring.log_call. run_monad.
  cbn [store set_calls]. rewrite H. reflexivity.
Qed.

(** What [get] answers right after [set]. *)
Lemma set_then_get password st :
  (keyring.set_password system username password;;
   keyring.get_password system username) st =
  (inr (Some password),
   called (GetPassword system username)
     (stored system username password st)).
Proof.
  rewrite (run_bind_ok _ _ _ _ _ (set_password_run password st)).
  rewrite get_password_run. f_equal. f_equal.
  unfold stored. cbn [store set_store]. apply lookup_insert_eq.
Qed.

End Store.

(** ** Dispatching on the function word *)

Section Dispatch.

Variables function system username password : string.

Lemma dispatch_set st :
  function = "set" →
  dispatch function system username password st =
  (inr ("Set password for " +:+ system +:+ "/" +:+ username),
   stored system username password st).
Proof. intros ->. reflexivity. Qed.

Lemma dispatch_get st :
  function = "get" →
  dispatch function system username password st =
  (inr ("Get password for " +:+ system +:+ "/" +:+ username +:+ ": "
        +:+ format (store st !! (system, username))),
   called (GetPassword system username) st).
Proof. intros ->. reflexivity. Qed.

Lemma dispatch_del_absent st :
  function = "del" →
  store st !! (system, username) = None →
  dispatch function system username password st =
  (inl (PasswordDeleteError keyring.not_found),
   called (DeletePassword system username) st).
Proof.
  intros -> H. unfold dispatch.
  rewrite bool_decide_false by discriminate.
  rewrite bool_decide_false by discriminate.
  rewrite bool_decide_true by reflexivity.
  apply run_bind_raise, delete_password_absent, H.
Qed.

Lemma dispatch_del_present old st :
  function = "del" →
  store st !! (system, username) = Some old →
  dispatch function system username password st =
  (inr ("Deleted password for " +:+ system +:+ "/" +:+ username),
   deleted system username st).
Proof.
  intros -> H. unfold dispatch.
  rewrite bool_decide_false by discriminate.
  rewrite bool_decide_false by discriminate.
  rewrite bool_decide_true by reflexivity.
  rewrite (run_bind_ok _ _ _ _ _ (delete_password_present _ _ old st H)).
  reflexivity.
Qed.

Lemma dispatch_invalid st :
  function ≠ "set" → function ≠ "get" → function ≠ "del" →
  dispatch function system username password st =
  (inl (ValueError ("Invalid function: " +:+ function)), st).
Proof.
  intros H1 H2 H3. unfold dispatch.
  rewrite !bool_decide_false by assumption. reflexivity.
Qed.

End Dispatch.

(** ** One turn of the loop *)

Lemma update_status_run msg is_error display st :
  update_status msg is_error display st =
  (inr tt, reported msg is_error display st).
Proof. destruct display, is_error; reflexivity. Qed.

Section Outcome.

Variable display : bool.
Variable line : string.
Variable st : state.

Lemma out_file_success : out_file (success display line st) = out_file st ++ [line].
Proof. destruct display; reflexivity. Qed.

Lemma out_file_failure : out_file (failure display line st) = out_file st ++ [line].
Proof. destruct display; reflexivity. Qed.

Lemma calls_success : calls (success display line st) = calls st.
Proof. destruct display; reflexivity. Qed.

Lemma calls_failure : calls (failure display line st) = calls st.
Proof. destruct display; reflexivity. Qed.

Lemma store_success : store (success display line st) = store st.
Proof. destruct display; reflexivity. Qed.

Lemma store_failure : store (failure display line st) = store st.
Proof. destruct display; reflexivity. Qed.

Lemma loc_system_success : loc_system (success display line st) = loc_system st.
Proof. destruct display; reflexivity. Qed.

Lemma loc_system_failure : loc_system (failure display line st) = loc_system st.
Proof. destruct display; reflexivity. Qed.

Lemma loc_username_success :
  loc_username (success display line st) = loc_username st.
Proof. destruct display; reflexivity. Qed.

Lemma loc_username_failure :
  loc_username (failure display line st) = loc_username st.
Proof. destruct display; reflexivity. Qed.



End Outcome.

Section RowStep.

Variable display : bool.
Variable row : gmap string value.

Lemma row_try_ok st function system username password st1 result st2 :
  validate row st = (inr (function, system, username, password), st1) →
  dispatch function system username password st1 = (inr result, st2) →
  row_try display row st =
  (inr tt, success display ("SUCCESS: " +:+ result) st2).
Proof.
  intros Hv Hd. unfold row_try.
  rewrite (run_bind_ok _ _ _ _ _ Hv). cbv beta iota.
  rewrite (run_bind_ok _ _ _ _ _ Hd).
  rewrite (run_bind_ok _ _ _ _ _ (update_status_run _ _ _ _)).
  reflexivity.
Qed.

Lemma row_try_invalid st e st1 :
  validate row st = (inl e, st1) → row_try display row st = (inl e, st1).
Proof. intros Hv. unfold row_try. apply run_bind_raise, Hv. Qed.

Lemma row_try_store_error st function system username password st1 e st2 :
  validate row st = (inr (function, system, username, password), st1) →
  dispatch function system username password st1 = (inl e, st2) →
  row_try display row st = (inl e, st2).
Proof.
  intros Hv Hd. unfold row_try.
  rewrite (run_bind_ok _ _ _ _ _ Hv). cbv beta iota.
  apply run_bind_raise, Hd.
Qed.

(** The handler with both locals assigned: one line, no exception. *)
Lemma row_except_assigned e st system username :
  loc_system st = Some system → loc_username st = Some username →
  row_except display e st =
  (inr tt,
   failure display
     ("ERROR: " +:+ system +:+ "/" +:+ username +:+ " - " +:+ str e) st).
Proof.
  intros Hs Hu. unfold row_except, local. run_monad.
  rewrite Hs. cbv beta iota. rewrite Hu. cbv beta iota.
  unfold write. run_monad. rewrite update_status_run. reflexivity.
Qed.

(** The handler with [system] not assigned yet: it raises itself. *)
Lemma row_except_unassigned e st :
  loc_system st = None →
  ∃ msg, row_except display e st = (inl (UnboundLocalError msg), st).
Proof.
  intros Hs. eexists. unfold row_except, local. run_monad.
  rewrite Hs. reflexivity.
Qed.

Lemma row_step_ok st st1 :
  row_try display row st = (inr tt, st1) →
  row_step display row st = (inr tt, st1).
Proof. intros H. unfold row_step. apply run_try_ok, H. Qed.

Lemma row_step_caught st e st1 system username :
  row_try display row st = (inl e, st1) →
  is_Exception e = true →
  loc_system st1 = Some system → loc_username st1 = Some username →
  row_step display row st =
  (inr tt,
   failure display
     ("ERROR: " +:+ system +:+ "/" +:+ username +:+ " - " +:+ str e) st1).
Proof.
  intros H He Hs Hu. unfold row_step.
  rewrite (run_try_raise _ _ _ _ _ H). unfold except_Exception.
  rewrite He. apply row_except_assigned; assumption.
Qed.

End RowStep.

(** ** The operation word (claim C3) *)

(** C3, as stated, fails: the word [delete] is not one of the accepted
    operation words.  A row [delete,svc2,bob,] is rejected as an invalid
    function; the store is not called and keeps the entry. *)
Lemma C3_delete_is_rejected :
  let st := fresh {[ ("svc2", "bob") := "pw" ]}
              {[ "in.csv" := [HEADER; ["delete"; "svc2"; "bob"; EmptyString]] ]} in
  let st' := snd (process_bulk_csv "in.csv" false st) in
  out_file st' = ["ERROR: svc2/bob - Invalid function: delete"]
  ∧ calls st' = []
  ∧ store st' !! ("svc2", "bob") = Some "pw".
Proof. vm_compute. auto. Qed.

(** C3 (amended): for a row with at least four cells whose function, system
    and username are non-empty and whose trimmed cells respect the length
    bounds, the trimmed, lower-cased function word [set], [get] or [del]
    is sent to the store operation of that name, and every other word
    (the word [delete] among them) fails the row, without any store
    operation, with the reason [Invalid function: <word>]. *)
Theorem C3_operation_words display f s u p extra st :
  Str.truth f = true → Str.truth s = true → Str.truth u = true →
  Str.len (Str.strip s) ≤ MAX_SYSTEM_LENGTH →
  Str.len (Str.strip u) ≤ MAX_USERNAME_LENGTH →
  (Str.lower (Str.strip f) = "set" →
   Str.len (Str.strip p) ≤ MAX_PASSWORD_LENGTH) →
  let function := Str.lower (Str.strip f) in
  let system := Str.strip s in
  let username := Str.strip u in
  let password := Str.strip p in
  ∃ st',
    row_step display (row_of (f :: s :: u :: p :: extra)) st = (inr tt, st')
    ∧ (function = "set" →
       calls st' = calls st ++ [SetPassword system username password]
       ∧ out_file st' =
         out_file st ++ ["SUCCESS: Set password for " +:+ system +:+ "/"
                         +:+ username])
    ∧ (function = "get" →
       calls st' = calls st ++ [GetPassword system username]
       ∧ out_file st' =
         out_file st ++ ["SUCCESS: Get password for " +:+ system +:+ "/"
                         +:+ username +:+ ": "
                         +:+ format (store st !! (system, username))])
    ∧ (function = "del" →
       calls st' = calls st ++ [DeletePassword system username]
       ∧ out_file st' =
         out_file st ++
           [match store st !! (system, username) with
            | Some _ =>
                "SUCCESS: Deleted password for " +:+ system +:+ "/" +:+ username
            | None =>
                "ERROR: " +:+ system +:+ "/" +:+ username +:+ " - "
                +:+ keyring.not_found
            end])
    ∧ (function ≠ "set" → function ≠ "get" → function ≠ "del" →
       calls st' = calls st
       ∧ store st' = store st
       ∧ out_file st' =
         out_file st ++ ["ERROR: " +:+ system +:+ "/" +:+ username
                         +:+ " - Invalid function: " +:+ function]).
Proof.
  intros Hf Hs Hu Ls Lu Lp function system username password.
  pose proof (validate_ok f s u p extra st Hf Hs Hu Ls Lu Lp) as Hv.
  fold function system username password in Hv.
  set (row := row_of _) in *. set (st1 := assigned system username st) in *.
  destruct (decide (function = "set")) as [Eset|Nset].
  { eexists. split.
    - apply row_step_ok. eapply row_try_ok; [exact Hv|].
      apply dispatch_set, Eset.
    - rewrite out_file_success, calls_success.
      repeat split; try (intros; congruence); rewrite Eset; discriminate. }
  destruct (decide (function = "get")) as [Eget|Nget].
  { eexists. split.
    - apply row_step_ok. eapply row_try_ok; [exact Hv|].
      apply dispatch_get, Eget.
    - rewrite out_file_success, calls_success.
      repeat split; try (intros; congruence); rewrite Eget; discriminate. }
  destruct (decide (function = "del")) as [Edel|Ndel].
  { destruct (store st !! (system, username)) as [old|] eqn:Hold.
    - eexists. split.
      + apply row_step_ok. eapply row_try_ok; [exact Hv|].
        eapply dispatch_del_present; [exact Edel|exact Hold].
      + rewrite out_file_success, calls_success.
        repeat split; try (intros; congruence); rewrite Edel; discriminate.
    - eexists. split.
      + eapply row_step_caught;
          [eapply row_try_store_error;
             [exact Hv | apply dispatch_del_absent; [exact Edel|exact Hold]]
          | reflexivity ..].
      + rewrite out_file_failure, calls_failure.
        repeat split; try (intros; congruence); rewrite Edel; discriminate. }
  eexists. split.
  - eapply row_step_caught;
      [eapply row_try_store_error;
         [exact Hv | apply dispatch_invalid; assumption]
      | reflexivity ..].
  - rewrite out_file_failure, calls_failure, store_failure.
    repeat split; try (intros; congruence).
Qed.

(** The amended C3 at work on the row [GET , svc1 ,alice,]. *)
Lemma C3_operation_words_witness :
  Str.truth "GET " = true
  ∧ Str.lower (Str.strip "GET ") = "get"
  ∧ ∃ st',
      row_step false (row_of ["GET "; " svc1 "; "alice"; EmptyString])
        (fresh ∅ ∅) = (inr tt, st')
      ∧ calls st' = [GetPassword "svc1" "alice"]
      ∧ out_file st' = ["SUCCESS: Get password for svc1/alice: None"].
Proof.
  split; [reflexivity|]. split; [reflexivity|].
  destruct (C3_operation_words false "GET " " svc1 " "alice" EmptyString []
              (fresh ∅ ∅))
    as (st' & Hrun & _ & Hget & _).
  - reflexivity.
  - reflexivity.
  - reflexivity.
  - vm_compute. lia.
  - vm_compute. lia.
  - intros _. vm_compute. lia.
  - exists st'. split; [exact Hrun|]. apply Hget. reflexivity.
Defined.

(** ** Required cells and length bounds (claim C4) *)

(** C4, as stated, fails on the batch

      function,system,username,password
      get,svc,alice,
      get,aaa...a,,          (255 letters, empty username)
      get,   ,alice,         (a system of three spaces)

    The second row has a system of exactly 255 characters, and its reason
    is the missing cell, not the system-length limit: line 141 comes
    before the length checks.  The third row has a system that is only
    whitespace, and it succeeds: emptiness is tested on the raw cell, so
    the store is asked for the empty system name. *)
Lemma C4_batch_with_long_and_blank_system :
  let st := fresh ∅
              {[ "in.csv" :=
                   [HEADER;
                    ["get"; "svc"; "alice"; EmptyString];
                    ["get"; Str.times "a" 255; EmptyString; EmptyString];
                    ["get"; "   "; "alice"; EmptyString]] ]} in
  let st' := snd (process_bulk_csv "in.csv" false st) in
  Str.len (Str.strip (Str.times "a" 255)) = 255
  ∧ Str.strip "   " = EmptyString
  ∧ out_file st' =
    ["SUCCESS: Get password for svc/alice: None";
     "ERROR: svc/alice - Missing required field(s): function, system, or username";
     "SUCCESS: Get password for /alice: None"]
  ∧ calls st' = [GetPassword "svc" "alice"; GetPassword EmptyString "alice"].
Proof. vm_compute. auto. Qed.

(** C4 (amended): for a row with at least four cells whose function, system
    and username cells are non-empty, system and username are trimmed
    before their lengths are checked, and the row yields a Failure outcome,
    without any store operation, when the trimmed system is longer than 254
    characters (reason [System name must be ≤254 characters]) and, the
    system being within its bound, when the trimmed username is longer than
    32 characters (reason [Username must be ≤32 characters]); in particular
    such a row with a trimmed system of exactly 255 characters fails with
    the system-length reason. *)
Theorem C4_length_bounds display f s u p extra st :
  Str.truth f = true → Str.truth s = true → Str.truth u = true →
  let system := Str.strip s in
  let username := Str.strip u in
  let outcome (reason : string) : Prop :=
    ∃ st',
      row_step display (row_of (f :: s :: u :: p :: extra)) st = (inr tt, st')
      ∧ out_file st' =
        out_file st ++ ["ERROR: " +:+ system +:+ "/" +:+ username +:+ " - "
                        +:+ reason]
      ∧ (if display then label st' = label st ++
                           [("ERROR: " +:+ system +:+ "/" +:+ username +:+ " - "
                             +:+ reason, true)]
         else stderr st' = stderr st ++
                ["ERROR: " +:+ system +:+ "/" +:+ username +:+ " - " +:+ reason])
      ∧ calls st' = calls st
      ∧ store st' = store st in
  (MAX_SYSTEM_LENGTH < Str.len system →
   outcome "System name must be ≤254 characters")
  ∧ (Str.len system = 255 → outcome "System name must be ≤254 characters")
  ∧ (Str.len system ≤ MAX_SYSTEM_LENGTH →
     MAX_USERNAME_LENGTH < Str.len username →
     outcome "Username must be ≤32 characters").
Proof.
  intros Hf Hs Hu system username outcome.
  assert (MAX_SYSTEM_LENGTH < Str.len system →
          outcome "System name must be ≤254 characters") as Hlong.
  { intros L. eexists. split.
    - eapply row_step_caught;
        [apply row_try_invalid, validate_system_too_long; assumption
        | reflexivity ..].
    - rewrite out_file_failure, calls_failure, store_failure.
      destruct display; repeat split. }
  split; [exact Hlong|]. split.
  - intros E. apply Hlong. rewrite E. unfold MAX_SYSTEM_LENGTH. lia.
  - intros Ls Lu. eexists. split.
    + eapply row_step_caught;
        [apply row_try_invalid, validate_username_too_long; assumption
        | reflexivity ..].
    + rewrite out_file_failure, calls_failure, store_failure.
      destruct display; repeat split.
Qed.

(** The amended C4 at work on a row whose system is 255 letters between two
    spaces. *)
Lemma C4_length_bounds_witness :
  Str.truth "get" = true
  ∧ Str.len (Str.strip (" " +:+ Str.times "a" 255 +:+ " ")) = 255
  ∧ ∃ st',
      row_step false
        (row_of ["get"; " " +:+ Str.times "a" 255 +:+ " "; "bob"; EmptyString])
        (fresh ∅ ∅) = (inr tt, st')
      ∧ out_file st' =
        ["ERROR: " +:+ Str.times "a" 255
         +:+ "/bob - System name must be ≤254 characters"]
      ∧ calls st' = [].
Proof.
  split; [reflexivity|]. split; [reflexivity|].
  destruct (C4_length_bounds false "get" (" " +:+ Str.times "a" 255 +:+ " ")
              "bob" EmptyString [] (fresh ∅ ∅))
    as (_ & H255 & _).
  - reflexivity.
  - reflexivity.
  - reflexivity.
  - destruct H255 as (st' & Hrun & Hout & _ & Hcalls & _); [reflexivity|].
    exists st'. split; [exact Hrun|]. split; [|exact Hcalls].
    rewrite Hout. reflexivity.
Defined.

(** ** A header that does not match (claim C5) *)

(** C5: when the first record of the file is not exactly
    [function,system,username,password] (an empty file included), the batch
    stops before any row: the results file is left empty, the store is not
    called, the failure is reported once (one message on standard error on
    the command line, one text on the label in the form, nothing on
    standard output), and on the command line the process exits with
    status 1. *)
Theorem C5_malformed_header path file display st :
  files st !! path = Some file →
  DictReader.fieldnames file ≠ Some HEADER →
  let msg :=
    "Failed to process CSV: CSV must have headers: function,system,username,password" in
  ∃ r st',
    process_bulk_csv path display st = (r, st')
    ∧ out_file st' = []
    ∧ calls st' = calls st
    ∧ store st' = store st
    ∧ stdout st' = stdout st
    ∧ (if display
       then r = inr tt
            ∧ label st' = label st ++ [(msg, true)]
            ∧ stderr st' = stderr st
       else r = inl (SystemExit 1)
            ∧ exit_code r = 1%Z
            ∧ stderr st' = stderr st ++ [msg]
            ∧ label st' = label st
            ∧ (path ≠ EmptyString →
               ∀ c, fst (main (Args (Some path) c) st) = 1%Z)).
Proof.
  intros Hfile Hhdr msg.
  assert (process_bulk_csv path display st =
          (if display then inr tt else inl (SystemExit 1),
           reported msg true display (set_out_file [] (unassigned st))))
    as Hrun.
  { unfold process_bulk_csv, open_read, open_write.
    erewrite run_bind_ok by reflexivity.
    erewrite run_try_raise.
    2:{ run_monad. cbn [files unassigned set_loc_username set_loc_system].
        rewrite Hfile. cbv beta iota.
        rewrite bool_decide_true by exact Hhdr. reflexivity. }
    unfold except_Exception. cbn [is_Exception str].
    rewrite (run_bind_ok _ _ _ _ _ (update_status_run _ _ _ _)).
    destruct display; reflexivity. }
  eexists _, _. split; [exact Hrun|].
  destruct display; cbn; repeat split.
  intros Hpath c. unfold main, cli_handler. cbn [bulk cmd].
  destruct path as [|a path]; [congruence|]. rewrite Hrun. reflexivity.
Qed.

(** C5 at work on the misspelled header [func,system,username,password]. *)
Lemma C5_malformed_header_witness :
  let file := [["func"; "system"; "username"; "password"];
               ["set"; "svc1"; "alice"; "secret1"]] in
  let st := fresh ∅ {[ "in.csv" := file ]} in
  DictReader.fieldnames file ≠ Some HEADER
  ∧ ∃ r st',
      process_bulk_csv "in.csv" false st = (r, st')
      ∧ out_file st' = [] ∧ calls st' = []
      ∧ exit_code r = 1%Z
      ∧ stderr st' =
        ["Failed to process CSV: CSV must have headers: function,system,username,password"].
Proof.
  intros file st.
  assert (DictReader.fieldnames file ≠ Some HEADER) as Hhdr by discriminate.
  split; [exact Hhdr|].
  destruct (C5_malformed_header "in.csv" file false st)
    as (r & st' & Hrun & Hout & Hcalls & _ & _ & _ & Hexit & Herr & _).
  - reflexivity.
  - exact Hhdr.
  - exists r, st'. repeat split; assumption.
Defined.

(** ** Deleting an entry that does not exist, in a batch (claim C6) *)

(** C6: a row whose operation is the delete operation (the word [del], in
    any letter case) and that passes validation, naming a pair the store
    has no entry for, yields a Failure outcome whose reason is the
    description of the store's error; the store is left as it was, the
    failure is reported as an error, and the loop goes on with the rows
    that follow. *)
Theorem C6_delete_absent_fails display f s u p extra rows st :
  Str.truth f = true → Str.truth s = true → Str.truth u = true →
  Str.lower (Str.strip f) = "del" →
  Str.len (Str.strip s) ≤ MAX_SYSTEM_LENGTH →
  Str.len (Str.strip u) ≤ MAX_USERNAME_LENGTH →
  store st !! (Str.strip s, Str.strip u) = None →
  let system := Str.strip s in
  let username := Str.strip u in
  let line :=
    "ERROR: " +:+ system +:+ "/" +:+ username +:+ " - "
    +:+ str (PasswordDeleteError keyring.not_found) in
  ∃ st',
    row_step display (row_of (f :: s :: u :: p :: extra)) st = (inr tt, st')
    ∧ keyring.delete_password system username (assigned system username st)
      = (inl (PasswordDeleteError keyring.not_found),
         called (DeletePassword system username) (assigned system username st))
    ∧ out_file st' = out_file st ++ [line]
    ∧ (if display then label st' = label st ++ [(line, true)]
       else stderr st' = stderr st ++ [line])
    ∧ stdout st' = stdout st
    ∧ store st' = store st
    ∧ for_rows display (row_of (f :: s :: u :: p :: extra) :: rows) st
      = for_rows display rows st'.
Proof.
  intros Hf Hs Hu Hdel Ls Lu Habsent system username line.
  assert (validate (row_of (f :: s :: u :: p :: extra)) st =
          (inr ("del", system, username, Str.strip p),
           assigned system username st)) as Hv.
  { rewrite <- Hdel. apply validate_ok; try assumption.
    rewrite Hdel. discriminate. }
  eexists. split; [|split].
  - eapply row_step_caught;
      [eapply row_try_store_error;
         [exact Hv | apply dispatch_del_absent; [reflexivity|exact Habsent]]
      | reflexivity ..].
  - apply delete_password_absent. exact Habsent.
  - rewrite out_file_failure, store_failure.
    split; [reflexivity|]. split; [destruct display; reflexivity|].
    split; [destruct display; reflexivity|]. split; [reflexivity|].
    cbn [for_rows]. erewrite run_bind_ok; [reflexivity|].
    eapply row_step_caught;
      [eapply row_try_store_error;
         [exact Hv | apply dispatch_del_absent; [reflexivity|exact Habsent]]
      | reflexivity ..].
Qed.

(** C6 at work on the third row of the specification's example,
    [del,svc2,bob,], followed by one more row. *)
Lemma C6_delete_absent_fails_witness :
  Str.lower (Str.strip "del") = "del"
  ∧ (∅ : gmap (string * string) string) !! ("svc2", "bob") = None
  ∧ ∃ st',
      row_step false (row_of ["del"; "svc2"; "bob"; EmptyString]) (fresh ∅ ∅)
      = (inr tt, st')
      ∧ out_file st' = ["ERROR: svc2/bob - " +:+ keyring.not_found]
      ∧ for_rows false
          [row_of ["del"; "svc2"; "bob"; EmptyString];
           row_of ["get"; "svc1"; "alice"; EmptyString]] (fresh ∅ ∅)
        = for_rows false [row_of ["get"; "svc1"; "alice"; EmptyString]] st'.
Proof.
  split; [reflexivity|]. split; [reflexivity|].
  destruct (C6_delete_absent_fails false "del" "svc2" "bob" EmptyString []
              [row_of ["get"; "svc1"; "alice"; EmptyString]] (fresh ∅ ∅))
    as (st' & Hrun & _ & Hout & _ & _ & _ & Hnext).
  - reflexivity.
  - reflexivity.
  - reflexivity.
  - reflexivity.
  - vm_compute. lia.
  - vm_compute. lia.
  - reflexivity.
  - exists st'. split; [exact Hrun|]. split; [exact Hout|exact Hnext].
Defined.

(** ** Set, then get (claim C8) *)

(** C8: for every system, username and password that pass validation, the
    store's set operation followed by its get operation on the same pair
    answers exactly the password that was set.  This holds of the two
    store operations themselves, of a batch made of a [set] row and a
    [get] row (where the values are the trimmed cells), and of the v1.0
    scripts [set_cred] and [get_cred] run one after the other. *)
Theorem C8_set_then_get display s u p st :
  Str.truth s = true → Str.truth u = true →
  Str.len (Str.strip s) ≤ MAX_SYSTEM_LENGTH →
  Str.len (Str.strip u) ≤ MAX_USERNAME_LENGTH →
  Str.len (Str.strip p) ≤ MAX_PASSWORD_LENGTH →
  let system := Str.strip s in
  let username := Str.strip u in
  let password := Str.strip p in
  (∃ st1,
     (keyring.set_password system username password;;
      keyring.get_password system username) st = (inr (Some password), st1))
  ∧ (∃ st2,
       for_rows display
         [row_of ["set"; s; u; p]; row_of ["get"; s; u; EmptyString]] st
       = (inr tt, st2)
       ∧ calls st2 =
         calls st ++ [SetPassword system username password;
                      GetPassword system username]
       ∧ out_file st2 =
         out_file st ++
           ["SUCCESS: Set password for " +:+ system +:+ "/" +:+ username;
            "SUCCESS: Get password for " +:+ system +:+ "/" +:+ username +:+ ": "
            +:+ password])
  ∧ (∃ st3,
       (V1.set_cred system username password;;
        V1.get_cred system username) st = (inr (Some password), st3)).
Proof.
  intros Hs Hu Ls Lu Lp system username password.
  split; [|split].
  - eexists. apply set_then_get.
  - set (line1 := "SUCCESS: Set password for " +:+ system +:+ "/" +:+ username).
    set (st1 := success display line1
                  (stored system username password
                     (assigned system username st))).
    assert (row_step display (row_of ["set"; s; u; p]) st = (inr tt, st1))
      as Hrow1.
    { apply row_step_ok. eapply row_try_ok.
      - apply validate_ok; try assumption; try reflexivity. intros _. exact Lp.
      - apply dispatch_set. reflexivity. }
    assert (store st1 !! (system, username) = Some password) as Hstored.
    { unfold st1. rewrite store_success. apply lookup_insert_eq. }
    eexists. split; [|split].
    + cbn [for_rows]. rewrite (run_bind_ok _ _ _ _ _ Hrow1).
      erewrite run_bind_ok; [reflexivity|].
      apply row_step_ok. eapply row_try_ok.
      * apply validate_ok; try assumption; try reflexivity. discriminate.
      * apply dispatch_get. reflexivity.
    + rewrite calls_success. cbn [calls assigned called set_calls set_loc_username
                                  set_loc_system].
      unfold st1. rewrite calls_success. cbn. rewrite <- app_assoc. reflexivity.
    + rewrite out_file_success. cbn [out_file assigned called set_calls
                                     set_loc_username set_loc_system store].
      unfold st1 at 1. rewrite out_file_success. cbn [out_file stored assigned
        called set_store set_calls set_loc_username set_loc_system].
      fold system username. rewrite Hstored, <- app_assoc. reflexivity.
  - eexists. unfold V1.set_cred, V1.get_cred.
    erewrite run_bind_ok.
    2:{ apply run_try_ok.
        erewrite run_bind_ok by apply set_password_run. reflexivity. }
    erewrite run_bind_ok.
    2:{ rewrite get_password_run. reflexivity. }
    cbn [store set_stdout called set_calls stored set_store].
    rewrite lookup_insert_eq. reflexivity.
Qed.

(** C8 at work on the specification's example: [set("svc","alice","p@ss")]
    followed by [get("svc","alice")] answers [p@ss]. *)
Lemma C8_set_then_get_witness :
  Str.len (Str.strip "p@ss") ≤ MAX_PASSWORD_LENGTH
  ∧ (∃ st1,
       (keyring.set_password "svc" "alice" "p@ss";;
        keyring.get_password "svc" "alice") (fresh ∅ ∅)
       = (inr (Some "p@ss"), st1))
  ∧ (∃ st2,
       for_rows false
         [row_of ["set"; "svc"; "alice"; "p@ss"];
          row_of ["get"; "svc"; "alice"; EmptyString]] (fresh ∅ ∅)
       = (inr tt, st2)
       ∧ out_file st2 =
         ["SUCCESS: Set password for svc/alice";
          "SUCCESS: Get password for svc/alice: p@ss"]).
Proof.
  assert (Str.len (Str.strip "p@ss") ≤ MAX_PASSWORD_LENGTH) as Lp
    by (vm_compute; lia).
  split; [exact Lp|].
  destruct (C8_set_then_get false "svc" "alice" "p@ss" (fresh ∅ ∅))
    as (Hstore & (st2 & Hrun & _ & Hout) & _).
  - reflexivity.
  - reflexivity.
  - vm_compute. lia.
  - vm_compute. lia.
  - exact Lp.
  - split; [exact Hstore|]. exists st2. split; [exact Hrun|exact Hout].
Defined.

(** ** Getting an entry that does not exist, in a batch (claim C10) *)

(** C10: a row whose operation is [get] and that passes validation, naming
    a pair the store has no entry for, yields a Success outcome: the line
    written is [SUCCESS: Get password for <system>/<username>: None], and
    it is reported as a success, not as an error.  A stored password
    that is the four letters [None] gives the very same line. *)
Theorem C10_get_absent_succeeds display f s u p extra st :
  Str.truth f = true → Str.truth s = true → Str.truth u = true →
  Str.lower (Str.strip f) = "get" →
  Str.len (Str.strip s) ≤ MAX_SYSTEM_LENGTH →
  Str.len (Str.strip u) ≤ MAX_USERNAME_LENGTH →
  store st !! (Str.strip s, Str.strip u) = None →
  let system := Str.strip s in
  let username := Str.strip u in
  let line :=
    "SUCCESS: Get password for " +:+ system +:+ "/" +:+ username +:+ ": None" in
  (∃ st',
     row_step display (row_of (f :: s :: u :: p :: extra)) st = (inr tt, st')
     ∧ out_file st' = out_file st ++ [line]
     ∧ (if display then label st' = label st ++ [(line, false)]
        else stdout st' = stdout st ++ [line])
     ∧ stderr st' = stderr st
     ∧ calls st' = calls st ++ [GetPassword system username])
  ∧ (∀ st0,
       store st0 !! (system, username) = Some "None" →
       ∃ st0',
         row_step display (row_of (f :: s :: u :: p :: extra)) st0
         = (inr tt, st0')
         ∧ out_file st0' = out_file st0 ++ [line]).
Proof.
  intros Hf Hs Hu Hget Ls Lu Habsent system username line.
  assert (∀ st0, validate (row_of (f :: s :: u :: p :: extra)) st0 =
                 (inr ("get", system, username, Str.strip p),
                  assigned system username st0)) as Hv.
  { intros st0. rewrite <- Hget. apply validate_ok; try assumption.
    rewrite Hget. discriminate. }
  split.
  - eexists. split.
    + apply row_step_ok. eapply row_try_ok; [apply Hv|].
      apply dispatch_get. reflexivity.
    + rewrite out_file_success, calls_success.
      cbn [store assigned set_loc_username set_loc_system].
      change (store st !! (system, username) = None) in Habsent.
      fold system username. rewrite Habsent.
      split; [reflexivity|]. destruct display; repeat split.
  - intros st0 Hnone. eexists. split.
    + apply row_step_ok. eapply row_try_ok; [apply Hv|].
      apply dispatch_get. reflexivity.
    + rewrite out_file_success.
      cbn [store assigned set_loc_username set_loc_system].
      rewrite Hnone. reflexivity.
Qed.

(** C10 at work on the row [get,svc1,alice,] with an empty store. *)
Lemma C10_get_absent_succeeds_witness :
  (∅ : gmap (string * string) string) !! (Str.strip "svc1", Str.strip "alice")
  = None
  ∧ ∃ st',
      row_step false (row_of ["get"; "svc1"; "alice"; EmptyString]) (fresh ∅ ∅)
      = (inr tt, st')
      ∧ out_file st' = ["SUCCESS: Get password for svc1/alice: None"]
      ∧ stderr st' = [].
Proof.
  split; [reflexivity|].
  destruct (C10_get_absent_succeeds false "get" "svc1" "alice" EmptyString []
              (fresh ∅ ∅))
    as ((st' & Hrun & Hout & _ & Herr & _) & _).
  - reflexivity.
  - reflexivity.
  - reflexivity.
  - reflexivity.
  - vm_compute. lia.
  - vm_compute. lia.
  - reflexivity.
  - exists st'. split; [exact Hrun|]. split; [exact Hout|exact Herr].
Defined.

(** ** How far a batch gets (claim C2) *)

Lemma truth_get (row : gmap string value) (key : string) :
  truth (get row key) = true →
  ∃ x, row !! key = Some (VStr x) ∧ Str.truth x = true.
Proof.
  unfold get. destruct (row !! key) as [[|x]|]; cbn; try discriminate.
  intros H. exists x. split; [reflexivity|exact H].
Qed.






(** With no local assigned, a row that lacks a required cell ends the
    loop: the handler's own exception leaves it. *)
Lemma row_step_unassigned display (row : gmap string value) st :
  loc_system st = None →
  truth (get row "function") = false ∨ truth (get row "system") = false
  ∨ truth (get row "username") = false →
  ∃ msg,
    row_step display row st = (inl (UnboundLocalError msg), st)
    ∧ ∀ rows, for_rows display (row :: rows) st
              = (inl (UnboundLocalError msg), st).
Proof.
  intros Hsy Hmiss.
  destruct (row_except_unassigned display (ValueError
              "Missing required field(s): function, system, or username")
              st Hsy) as (msg & Hh).
  assert (row_step display row st = (inl (UnboundLocalError msg), st)) as Hrow.
  { unfold row_step.
    rewrite (run_try_raise _ _ _ _ _
               (row_try_invalid display row _ _ _ (validate_missing row st Hmiss))).
    exact Hh. }
  exists msg. split; [exact Hrow|]. intros rows. cbn [for_rows].
  apply run_bind_raise, Hrow.
Qed.




(** A first row that lacks a required cell ends the whole batch: nothing is written, the store is not called, and on the command
    line the process exits with status 1. *)
Lemma process_bulk_csv_first_row_missing path file row rows st :
  files st !! path = Some file →
  DictReader.fieldnames file = Some HEADER →
  DictReader.rows file = row :: rows →
  truth (get row "function") = false ∨ truth (get row "system") = false
  ∨ truth (get row "username") = false →
  ∃ st',
    process_bulk_csv path false st = (inl (SystemExit 1), st')
    ∧ out_file st' = []
    ∧ calls st' = calls st
    ∧ store st' = store st
    ∧ length (stderr st') = S (length (stderr st)).
Proof.
  intros Hfile Hhdr Hrows Hmiss.
  destruct (row_step_unassigned false row (set_out_file [] (unassigned st))
              eq_refl Hmiss)
    as (msg & _ & Hloop).
  eexists. split.
  - unfold process_bulk_csv. erewrite run_bind_ok by reflexivity.
    erewrite run_try_raise.
    2:{ erewrite run_bind_ok.
        2:{ unfold open_read. run_monad. cbn [files unassigned set_loc_username
              set_loc_system]. rewrite Hfile. reflexivity. }
        erewrite run_bind_ok by reflexivity.
        erewrite run_bind_ok.
        2:{ unfold raise_if.
            rewrite bool_decide_false by (intros H; apply H; exact Hhdr).
            reflexivity. }
        rewrite Hrows. apply run_bind_raise, Hloop. }
    reflexivity.
  - cbn. rewrite length_app. cbn. repeat split. lia.
Qed.

(** C2, evaluated on the batch

      function,system,username,password
      get,,alice,
      set,svc1,alice,secret1

    The first row lacks its system.  Its handler reads the local [system]
    before any row assigned it, and the exception this raises leaves the
    loop: no line is written for the first row, the second row is never
    read, the store is never called, and the process exits with status 1
    after one [Failed to process CSV] message. *)
Theorem C2_first_row_failure_aborts_batch :
  let st := fresh ∅
              {[ "in.csv" :=
                   [HEADER;
                    ["get"; EmptyString; "alice"; EmptyString];
                    ["set"; "svc1"; "alice"; "secret1"]] ]} in
  let st' := snd (process_bulk_csv "in.csv" false st) in
  fst (process_bulk_csv "in.csv" false st) = inl (SystemExit 1)
  ∧ length (DictReader.rows [HEADER;
                             ["get"; EmptyString; "alice"; EmptyString];
                             ["set"; "svc1"; "alice"; "secret1"]]) = 2
  ∧ out_file st' = []
  ∧ calls st' = []
  ∧ store st' = ∅
  ∧ stdout st' = []
  ∧ stderr st' =
    ["Failed to process CSV: cannot access local variable 'system' where it is not associated with a value"]
  ∧ fst (main (Args (Some "in.csv") None) st) = 1%Z.
Proof. vm_compute. repeat split. Qed.

(** ** A set row with an empty password (claim C1) *)

(** C1, evaluated on the batch

      function,system,username,password
      set,svc,alice,

    The row's password is empty.  Nothing in lines 141 to 155 asks for a
    password, so the store's set operation is called with the empty
    password, the row is recorded as a success, and the store holds the
    empty password afterwards. *)
Theorem C1_set_with_empty_password_is_stored :
  let st := fresh ∅
              {[ "in.csv" :=
                   [HEADER; ["set"; "svc"; "alice"; EmptyString]] ]} in
  let st' := snd (process_bulk_csv "in.csv" false st) in
  fst (process_bulk_csv "in.csv" false st) = inr tt
  ∧ out_file st' = ["SUCCESS: Set password for svc/alice"]
  ∧ calls st' = [SetPassword "svc" "alice" EmptyString]
  ∧ store st' !! ("svc", "alice") = Some EmptyString
  ∧ stderr st' = [].
Proof. vm_compute. repeat split. Qed.

(** ** Store errors on the command line (claim C7) *)

(** C7, evaluated on [keyring_tools.py del svc2 bob] with no entry for
    svc2/bob: the store raises [PasswordDeleteError], the handler of line
    253 prints two lines on standard output and returns, and the process
    exits with status 0.  The v1.0 script [del_cred.py svc2 bob] does the
    same. *)
Theorem C7_cli_delete_absent_exits_zero :
  let st := fresh ∅ ∅ in
  keyring.delete_password "svc2" "bob" st
  = (inl (PasswordDeleteError keyring.not_found),
     called (DeletePassword "svc2" "bob") st)
  ∧ fst (main (Args None (Some (CmdDel "svc2" "bob"))) st) = 0%Z
  ∧ stdout (snd (main (Args None (Some (CmdDel "svc2" "bob"))) st)) =
    ["ERROR: Failed to delete credential store.";
     "Credential store " +:+ Str.quote +:+ "svc2" +:+ Str.quote
     +:+ " may not exist, or username " +:+ Str.quote +:+ "bob" +:+ Str.quote
     +:+ " may be incorrect."]
  ∧ stderr (snd (main (Args None (Some (CmdDel "svc2" "bob"))) st)) = []
  ∧ fst (V1.run (V1.del_cred "svc2" "bob") st) = 0%Z.
Proof. vm_compute. repeat split. Qed.

(** ** The clipboard, step by step *)

(** What the clearing thread does once its delay has passed. *)
Lemma clear_run st : clear st = (inr tt, set_clipboard EmptyString st).
Proof. reflexivity. Qed.

(** Copying a password from the form puts it on the clipboard and starts
    the thirty-second clearing thread before returning. *)
Lemma copy_to_clipboard_starts_timer password st :
  Str.truth password = true →
  ∃ st',
    KeyringApp.copy_to_clipboard password st = (inr tt, st')
    ∧ clipboard st' = password
    ∧ timers st' = timers st ++ [30].
Proof.
  intros H. unfold KeyringApp.copy_to_clipboard. rewrite H. cbn [negb].
  eexists. split; [reflexivity|]. split; reflexivity.
Qed.

(** ** The command line, for any pair *)

(** Deleting a pair the store does not hold ends with status 0, with
    nothing on standard error. *)
Lemma cli_delete_absent system username st :
  store st !! (system, username) = None →
  fst (main (Args None (Some (CmdDel system username))) st) = 0%Z
  ∧ stderr (snd (main (Args None (Some (CmdDel system username))) st))
    = stderr st.
Proof.
  intros H. unfold main, cli_handler. cbn [bulk cmd].
  erewrite run_try_raise.
  2:{ apply run_bind_raise, delete_password_absent, H. }
  cbn [is_PasswordDeleteError]. split; reflexivity.
Qed.

(** Deleting a pair the store holds removes it and ends with status 0. *)
Lemma cli_delete_present system username old st :
  store st !! (system, username) = Some old →
  fst (main (Args None (Some (CmdDel system username))) st) = 0%Z
  ∧ store (snd (main (Args None (Some (CmdDel system username))) st))
      !! (system, username) = None.
Proof.
  intros H. unfold main, cli_handler. cbn [bulk cmd].
  erewrite run_try_ok.
  2:{ erewrite run_bind_ok by (eapply delete_password_present, H).
      reflexivity. }
  split; [reflexivity|]. cbn. apply lookup_delete_eq.
Qed.

(** ** Python's [strip] and [lower] on examples *)

Example strip_both_sides :
  Str.strip ("  svc 1" +:+ Str.newline) = "svc 1".
Proof. reflexivity. Qed.

Example strip_blank : Str.strip "   " = EmptyString.
Proof. reflexivity. Qed.

Example lower_mixed : Str.lower "SeT" = "set".
Proof. reflexivity. Qed.

(** * More of the batch processor *)

(** ** What one turn of the loop can do *)

Lemma quiet_refl st : quiet st st.
Proof. repeat split. Qed.

Lemma quiet_assigned system username st : quiet st (assigned system username st).
Proof. repeat split. Qed.

Lemma quiet_trans st1 st2 st3 : quiet st1 st2 → quiet st2 st3 → quiet st1 st3.
Proof.
  unfold quiet. intros (a1 & a2 & a3 & a4 & a5 & a6 & a7 & a8)
    (b1 & b2 & b3 & b4 & b5 & b6 & b7 & b8).
  rewrite b1, b2, b3, b4, b5, b6, b7, b8. repeat split; assumption.
Qed.

(** [dispatch] issues at most one operation, on the pair it is given, and
    prints nothing. *)
Lemma dispatch_effect function system username password st :
  ∃ r st' cs,
    dispatch function system username password st = (r, st')
    ∧ match r with inl e => is_Exception e = true | inr _ => True end
    ∧ quiet st st'
    ∧ loc_system st' = loc_system st ∧ loc_username st' = loc_username st
    ∧ calls st' = calls st ++ cs ∧ length cs ≤ 1
    ∧ ∀ k, k ≠ (system, username) → store st' !! k = store st !! k.
Proof.
  destruct (decide (function = "set")) as [E|N1].
  { eexists _, _, [_]. split; [apply dispatch_set, E|].
    repeat split; [cbn; lia|]. intros k Hk. cbn. apply lookup_insert_ne.
    congruence. }
  destruct (decide (function = "get")) as [E|N2].
  { eexists _, _, [_]. split; [apply dispatch_get, E|].
    repeat split. cbn; lia. }
  destruct (decide (function = "del")) as [E|N3].
  { destruct (store st !! (system, username)) as [old|] eqn:H.
    - eexists _, _, [_]. split; [eapply dispatch_del_present; [exact E|exact H]|].
      repeat split; [cbn; lia|]. intros k Hk. cbn. apply lookup_delete_ne.
      congruence.
    - eexists _, _, [_]. split; [apply dispatch_del_absent; [exact E|exact H]|].
      repeat split. cbn; lia. }
  eexists _, _, []. split; [apply dispatch_invalid; assumption|].
  rewrite app_nil_r. repeat split. cbn; lia.
Qed.

(** The cells of a row that passes line 141 are strings. *)
Lemma validate_present_key (row : gmap string value) (st : state) :
  truth (get row "function") = true → truth (get row "system") = true →
  truth (get row "username") = true →
  let st1 := assigned (cell row "system") (cell row "username") st in
  (∃ function password,
     validate row st =
     (inr (function, cell row "system", cell row "username", password), st1))
  ∨ (∃ e, is_Exception e = true ∧ validate row st = (inl e, st1)).
Proof.
  intros Hf Hs Hu.
  destruct (truth_get _ _ Hf) as (f & Ef & _).
  destruct (truth_get _ _ Hs) as (s & Es & _).
  destruct (truth_get _ _ Hu) as (u & Eu & _).
  assert (cell row "system" = Str.strip s) as ->
    by (unfold cell, get; rewrite Es; reflexivity).
  assert (cell row "username" = Str.strip u) as ->
    by (unfold cell, get; rewrite Eu; reflexivity).
  cbv zeta. unfold validate. rewrite Hf, Hs, Hu. cbn [negb orb].
  unfold getitem, get_default. rewrite Ef, Es, Eu.
  destruct (row !! "password") as [[|p]|]; cbn [default from_option id];
    run_monad.
  1: right; eexists; split; [|reflexivity]; reflexivity.
  all: destruct (MAX_SYSTEM_LENGTH <? _);
    [right; eexists; split; [|reflexivity]; reflexivity|];
    destruct (MAX_USERNAME_LENGTH <? _);
    [right; eexists; split; [|reflexivity]; reflexivity|];
    destruct (bool_decide _ && _);
    [right; eexists; split; [|reflexivity]; reflexivity|];
    left; eexists _, _; reflexivity.
Qed.

(** The handler with one of the two locals not assigned raises itself. *)
Lemma row_except_raises display e st :
  loc_system st = None ∨ loc_username st = None →
  ∃ msg, row_except display e st = (inl (UnboundLocalError msg), st).
Proof.
  intros H. unfold row_except, local. run_monad.
  destruct (loc_system st) as [sy|]; [|eexists; reflexivity].
  destruct H as [H|H]; [discriminate|]. rewrite H. eexists. reflexivity.
Qed.

Lemma logged_quiet display st st' : quiet st st' → logged display [] st st'.
Proof.
  intros (a1 & a2 & a3 & a4 & a5 & a6 & a7 & a8). unfold logged.
  rewrite a1, a2, a3, a4, a5, a6, a7, a8.
  destruct display; cbn; rewrite !app_nil_r; repeat split.
Qed.

Lemma logged_app display lines1 lines2 st1 st2 st3 :
  logged display lines1 st1 st2 → logged display lines2 st2 st3 →
  logged display (lines1 ++ lines2) st1 st3.
Proof.
  intros (a1 & a2 & a3 & a4 & a5 & a6 & a7 & a8)
    (b1 & b2 & b3 & b4 & b5 & b6 & b7 & b8). unfold logged.
  rewrite b1, b2, b3, b4, b5, b6, b7, b8, a1, a2, a3, a4, a5, a6, a7, a8.
  rewrite <- !app_assoc.
  destruct display; rewrite ?fmap_app, ?List.filter_app, ?app_nil_r;
    repeat split.
Qed.

Lemma is_error_line_ERROR rest : is_error_line ("ERROR: " +:+ rest) = true.
Proof. destruct rest; reflexivity. Qed.

Lemma is_error_line_SUCCESS rest : is_error_line ("SUCCESS: " +:+ rest) = false.
Proof. destruct rest; reflexivity. Qed.

Lemma logged_success display result st st2 :
  quiet st st2 →
  logged display ["SUCCESS: " +:+ result] st
    (success display ("SUCCESS: " +:+ result) st2).
Proof.
  intros (a1 & a2 & a3 & a4 & a5 & a6 & a7 & a8). unfold logged.
  rewrite <- a1, <- a2, <- a3, <- a4, <- a5, <- a6, <- a7, <- a8.
  destruct display; cbn; rewrite ?is_error_line_SUCCESS, ?app_nil_r;
    repeat split.
Qed.

Lemma logged_failure display system username reason st st2 :
  quiet st st2 →
  logged display ["ERROR: " +:+ system +:+ "/" +:+ username +:+ " - " +:+ reason]
    st
    (failure display
       ("ERROR: " +:+ system +:+ "/" +:+ username +:+ " - " +:+ reason) st2).
Proof.
  intros (a1 & a2 & a3 & a4 & a5 & a6 & a7 & a8). unfold logged.
  rewrite <- a1, <- a2, <- a3, <- a4, <- a5, <- a6, <- a7, <- a8.
  destruct display; cbn; rewrite ?is_error_line_ERROR, ?app_nil_r;
    repeat split.
Qed.

(** One turn of the loop, whatever the row and the state: either it
    records one line, reports it, issues at most one store operation on
    the pair the row names and leaves both locals assigned; or the handler
    raises [UnboundLocalError] and nothing at all has changed.  The
    second case needs a local that is not assigned on entry. *)
Lemma row_step_effect display (row : gmap string value) (st : state) :
  ∃ r st' lines cs,
    row_step display row st = (r, st')
    ∧ (r = inr tt ∧ length lines = 1
       ∧ is_Some (loc_system st') ∧ is_Some (loc_username st')
       ∨ (∃ msg, r = inl (UnboundLocalError msg)) ∧ lines = [] ∧ cs = []
         ∧ st' = st
         ∧ (loc_system st = None ∨ loc_username st = None))
    ∧ logged display lines st st'
    ∧ calls st' = calls st ++ cs ∧ length cs ≤ 1
    ∧ ∀ k, k ≠ row_key row → store st' !! k = store st !! k.
Proof.
  destruct (truth (get row "function") && truth (get row "system")
            && truth (get row "username")) eqn:Hcells.
  - apply andb_true_iff in Hcells as [[Hf Hs]%andb_true_iff Hu].
    destruct (validate_present_key row st Hf Hs Hu)
      as [(fn & pw & Hv) | (e & He & Hv)].
    + destruct (dispatch_effect fn (cell row "system") (cell row "username") pw
                  (assigned (cell row "system") (cell row "username") st))
        as (r & st2 & cs & Hd & Hr & Hq & Hls & Hlu & Hc & Hlen & Hframe).
      pose proof (quiet_trans _ _ _ (quiet_assigned _ _ st) Hq) as Hq'.
      destruct r as [e|res].
      * eexists _, _, [_], cs. split.
        { eapply row_step_caught;
            [eapply row_try_store_error; [exact Hv|exact Hd] | exact Hr
            | rewrite Hls; reflexivity | rewrite Hlu; reflexivity]. }
        rewrite calls_failure, store_failure, loc_system_failure,
          loc_username_failure, Hls, Hlu.
        split; [left; repeat split; eexists; reflexivity|].
        split; [apply logged_failure, Hq'|].
        split; [exact Hc|]. split; [exact Hlen|exact Hframe].
      * eexists _, _, [_], cs. split.
        { apply row_step_ok. eapply row_try_ok; [exact Hv|exact Hd]. }
        rewrite calls_success, store_success, loc_system_success,
          loc_username_success, Hls, Hlu.
        split; [left; repeat split; eexists; reflexivity|].
        split; [apply logged_success, Hq'|].
        split; [exact Hc|]. split; [exact Hlen|exact Hframe].
    + eexists _, _, [_], []. split.
      { eapply row_step_caught;
          [apply row_try_invalid; exact Hv | exact He | reflexivity ..]. }
      rewrite calls_failure, store_failure, loc_system_failure,
        loc_username_failure, app_nil_r.
      split; [left; repeat split; eexists; reflexivity|].
      split; [apply logged_failure, quiet_assigned|].
      repeat split. cbn; lia.
  - assert (truth (get row "function") = false ∨ truth (get row "system") = false
            ∨ truth (get row "username") = false) as Hmiss.
    { apply andb_false_iff in Hcells as [[H|H]%andb_false_iff|H]; auto. }
    pose proof (row_try_invalid display row _ _ _ (validate_missing row st Hmiss))
      as Htry.
    destruct (loc_system st) as [sy|] eqn:Hsy;
      [destruct (loc_username st) as [us|] eqn:Hus|].
    + eexists _, _, [_], []. split.
      { eapply row_step_caught; [exact Htry | reflexivity | exact Hsy | exact Hus]. }
      rewrite calls_failure, store_failure, loc_system_failure,
        loc_username_failure, app_nil_r, Hsy, Hus.
      split; [left; repeat split; eexists; reflexivity|].
      split; [apply logged_failure, quiet_refl|].
      repeat split. cbn; lia.
    + destruct (row_except_raises display (ValueError
                  "Missing required field(s): function, system, or username")
                  st (or_intror Hus)) as (msg & Hh).
      exists (inl (UnboundLocalError msg)), st, [], []. split.
      { unfold row_step. rewrite (run_try_raise _ _ _ _ _ Htry). exact Hh. }
      rewrite app_nil_r.
      split; [right; repeat split; eauto|].
      split; [apply logged_quiet, quiet_refl|]. repeat split. cbn; lia.
    + destruct (row_except_raises display (ValueError
                  "Missing required field(s): function, system, or username")
                  st (or_introl Hsy)) as (msg & Hh).
      exists (inl (UnboundLocalError msg)), st, [], []. split.
      { unfold row_step. rewrite (run_try_raise _ _ _ _ _ Htry). exact Hh. }
      rewrite app_nil_r.
      split; [right; repeat split; eauto|].
      split; [apply logged_quiet, quiet_refl|]. repeat split. cbn; lia.
Qed.

(** The whole loop: either every row records and reports one line, or the
    first row ends the loop with [UnboundLocalError] and nothing has
    changed.  At most one store operation is issued per recorded line, and
    only the pairs the rows name can change in the store. *)
Lemma for_rows_effect display (rows : list (gmap string value)) :
  ∀ st,
    ∃ r st' lines cs,
      for_rows display rows st = (r, st')
      ∧ (r = inr tt ∧ length lines = length rows
         ∨ (∃ msg, r = inl (UnboundLocalError msg)) ∧ lines = [] ∧ cs = []
           ∧ st' = st ∧ rows ≠ []
           ∧ (loc_system st = None ∨ loc_username st = None))
      ∧ logged display lines st st'
      ∧ calls st' = calls st ++ cs ∧ length cs ≤ length lines
      ∧ ∀ k, (∀ row, row ∈ rows → row_key row ≠ k) →
             store st' !! k = store st !! k.
Proof.
  induction rows as [|row rows IH]; intros st.
  - exists (inr tt), st, [], []. rewrite app_nil_r.
    split; [reflexivity|]. split; [left; split; reflexivity|].
    split; [apply logged_quiet, quiet_refl|]. repeat split. cbn; lia.
  - destruct (row_step_effect display row st)
      as (r1 & st1 & l1 & c1 & Hrow & Hshape & Hlog & Hc & Hlen & Hframe).
    destruct Hshape as [(-> & Hl1 & Hs1 & Hu1) | ((msg & ->) & -> & -> & -> & Hloc)].
    + destruct (IH st1)
        as (r2 & st' & l2 & c2 & Hrest & Hshape2 & Hlog2 & Hc2 & Hlen2 & Hframe2).
      destruct Hshape2 as [(-> & Hl2) | (_ & _ & _ & -> & _ & Hloc)].
      2:{ destruct Hs1 as [? Hs1], Hu1 as [? Hu1], Hloc as [H|H]; congruence. }
      exists (inr tt), st', (l1 ++ l2), (c1 ++ c2). split.
      { cbn [for_rows]. rewrite (run_bind_ok _ _ _ _ _ Hrow). exact Hrest. }
      split; [left; split; [reflexivity|]; rewrite length_app; cbn; lia|].
      split; [eapply logged_app; eassumption|].
      split; [rewrite Hc2, Hc, app_assoc; reflexivity|].
      split; [rewrite !length_app; lia|].
      intros k Hk. rewrite Hframe2, Hframe.
      * reflexivity.
      * intros E. apply (Hk row); [left|symmetry; exact E].
      * intros row' Hin. apply Hk. right. exact Hin.
    + exists (inl (UnboundLocalError msg)), st, [], []. split.
      { cbn [for_rows]. apply run_bind_raise, Hrow. }
      rewrite app_nil_r.
      split; [right; repeat split; eauto; discriminate|].
      split; [apply logged_quiet, quiet_refl|]. repeat split. cbn; lia.
Qed.

(** ** What a whole call can do *)

Lemma reported_quiet_store msg is_error display st :
  store (reported msg is_error display st) = store st
  ∧ calls (reported msg is_error display st) = calls st
  ∧ out_file (reported msg is_error display st) = out_file st
  ∧ files (reported msg is_error display st) = files st.
Proof. destruct display, is_error; repeat split. Qed.

(** The auto-open step of the form either changes nothing or reports its
    failure on the label. *)
Lemma viewer_step_cases (display : bool) (st : state) :
  ∃ st',
    ((if display then
        try_except launch_viewer
          (except_Exception (λ e,
             update_status ("Failed to auto-open results: " +:+ str e)
               true display))
      else mret tt) : M unit) st = (inr tt, st')
    ∧ (st' = st ∨ ∃ msg, st' = reported msg true display st).
Proof.
  destruct display; [|exists st; split; [reflexivity|left; reflexivity]].
  unfold try_except, launch_viewer. run_monad.
  destruct (viewer st) as [m|]; [|exists st; split; [reflexivity|left; reflexivity]].
  cbn [except_Exception is_Exception]. rewrite update_status_run.
  eexists. split; [reflexivity|]. right. eexists. reflexivity.
Qed.

(** The outer handler of lines 199 to 203. *)
Lemma fatal_run (display : bool) (e : exception) (st : state) :
  is_Exception e = true →
  except_Exception (λ e,
    update_status ("Failed to process CSV: " +:+ str e) true display;;
    ((if display then mret tt else sys_exit 1) : M unit)) e st
  = (if display then inr tt else inl (SystemExit 1),
     reported ("Failed to process CSV: " +:+ str e) true display st).
Proof.
  intros He. unfold except_Exception. rewrite He.
  rewrite (run_bind_ok _ _ _ _ _ (update_status_run _ _ _ _)).
  destruct display; reflexivity.
Qed.

(** Every call of [process_bulk_csv], whatever the path, the file and the
    state: it returns normally or, on the command line only, leaves with
    [SystemExit(1)]; a missing input file leaves the results file as it
    was; otherwise the results file holds at most one line per row, and at
    most one store operation was issued per line; only the pairs the rows
    name can have changed in the store. *)
Lemma process_bulk_csv_effect path display st :
  ∃ r st' cs,
    process_bulk_csv path display st = (r, st')
    ∧ (r = inr tt ∨ display = false ∧ r = inl (SystemExit 1))
    ∧ calls st' = calls st ++ cs
    ∧ match files st !! path with
      | None => out_file st' = out_file st ∧ cs = []
      | Some file =>
          length cs ≤ length (out_file st')
          ∧ length (out_file st') ≤ length (DictReader.rows file)
      end
    ∧ (∀ k,
         (∀ file row, files st !! path = Some file →
                      row ∈ DictReader.rows file → row_key row ≠ k) →
         store st' !! k = store st !! k)
    ∧ files st' = files st.
Proof.
  unfold process_bulk_csv. rewrite (run_bind_ok _ _ _ tt (unassigned st))
    by reflexivity.
  destruct (files st !! path) as [file|] eqn:Hfile.
  2:{ erewrite run_try_raise.
      2:{ apply run_bind_raise. unfold open_read. run_monad.
          cbn [files unassigned set_loc_username set_loc_system].
          rewrite Hfile. reflexivity. }
      rewrite fatal_run by reflexivity.
      destruct (reported_quiet_store
                  ("Failed to process CSV: "
                   +:+ str (FileNotFoundError
                              ("[Errno 2] No such file or directory: '"
                               +:+ path +:+ "'")))
                  true display (unassigned st)) as (Rs & Rc & Ro & Rf).
      eexists _, _, []. split; [reflexivity|]. rewrite Rs, Rc, Ro, Rf, app_nil_r.
      split; [destruct display; auto|]. repeat split. }
  assert (open_read path (unassigned st) = (inr file, unassigned st)) as Hopen.
  { unfold open_read. run_monad.
    cbn [files unassigned set_loc_username set_loc_system].
    rewrite Hfile. reflexivity. }
  set (st0 := set_out_file [] (unassigned st)).
  destruct (decide (DictReader.fieldnames file = Some HEADER)) as [Hhdr|Hhdr].
  2:{ erewrite run_try_raise.
      2:{ rewrite (run_bind_ok _ _ _ _ _ Hopen).
          erewrite run_bind_ok by reflexivity.
          apply run_bind_raise. unfold raise_if.
          rewrite bool_decide_true by exact Hhdr. reflexivity. }
      rewrite fatal_run by reflexivity.
      eexists _, _, []. split; [reflexivity|].
      destruct display; cbn; rewrite app_nil_r; repeat split; auto; lia. }
  destruct (for_rows_effect display (DictReader.rows file) st0)
    as (r & st1 & lines & cs & Hloop & Hshape & Hlog & Hc & Hlen & Hframe).
  assert (∀ k,
            (∀ file0 row, Some file = Some file0 →
                          row ∈ DictReader.rows file0 → row_key row ≠ k) →
            store st1 !! k = store st !! k) as Hframe'.
  { intros k Hk. rewrite Hframe; [reflexivity|].
    intros row Hin. exact (Hk file row eq_refl Hin). }
  destruct Hshape as [(-> & Hlines) | ((msg & ->) & -> & -> & -> & _)].
  - set (msg := "Bulk processing complete." +:+ Str.newline
                +:+ "Results saved to " +:+ Str.quote +:+ "./"
                +:+ results_filename +:+ Str.quote).
    destruct (viewer_step_cases display (reported msg false display st1))
      as (st3 & Hview & Hst3).
    destruct (reported_quiet_store msg false display st1) as (Rs & Rc & Ro & Rf).
    destruct Hlog as (Lo & _ & _ & _ & _ & _ & Lf & _).
    assert (store st3 = store st1 ∧ calls st3 = calls st1
            ∧ out_file st3 = out_file st1 ∧ files st3 = files st1)
      as (Vs & Vc & Vo & Vf).
    { destruct Hst3 as [-> | (m & ->)].
      - rewrite Rs, Rc, Ro, Rf. repeat split.
      - destruct (reported_quiet_store m true display
                    (reported msg false display st1)) as (Qs & Qc & Qo & Qf).
        rewrite Qs, Qc, Qo, Qf, Rs, Rc, Ro, Rf. repeat split. }
    eexists _, _, cs. split.
    { apply run_try_ok.
      rewrite (run_bind_ok _ _ _ _ _ Hopen).
      erewrite run_bind_ok by reflexivity.
      erewrite run_bind_ok.
      2:{ unfold raise_if.
          rewrite bool_decide_false by (intros H; apply H; exact Hhdr).
          reflexivity. }
      fold st0. rewrite (run_bind_ok _ _ _ _ _ Hloop).
      rewrite (run_bind_ok _ _ _ _ _ (update_status_run _ _ _ _)).
      fold msg. rewrite (run_bind_ok _ _ _ _ _ Hview). reflexivity. }
    cbn [calls store out_file files set_timers set_clipboard].
    rewrite Vs, Vc, Vo, Vf, Lo, Lf, Hc.
    split; [left; reflexivity|]. split; [reflexivity|].
    split; [cbn; split; lia|]. split; [exact Hframe'|reflexivity].
  - erewrite run_try_raise.
    2:{ rewrite (run_bind_ok _ _ _ _ _ Hopen).
        erewrite run_bind_ok by reflexivity.
        erewrite run_bind_ok.
        2:{ unfold raise_if.
            rewrite bool_decide_false by (intros H; apply H; exact Hhdr).
            reflexivity. }
        fold st0. apply run_bind_raise, Hloop. }
    rewrite fatal_run by reflexivity.
    eexists _, _, []. split; [reflexivity|].
    destruct display; cbn; rewrite app_nil_r; repeat split; auto; lia.
Qed.

(** ** Rows with four cells, in full *)

(** Lines 141 to 155 on a row with at least four cells, as one decision. *)
Lemma validate_row_of f s u p extra st :
  validate (row_of (f :: s :: u :: p :: extra)) st =
  if negb (Str.truth f) || negb (Str.truth s) || negb (Str.truth u) then
    (inl (ValueError
            "Missing required field(s): function, system, or username"), st)
  else if MAX_SYSTEM_LENGTH <? Str.len (Str.strip s) then
    (inl (ValueError "System name must be ≤254 characters"),
     assigned (Str.strip s) (Str.strip u) st)
  else if MAX_USERNAME_LENGTH <? Str.len (Str.strip u) then
    (inl (ValueError "Username must be ≤32 characters"),
     assigned (Str.strip s) (Str.strip u) st)
  else if bool_decide (Str.lower (Str.strip f) = "set")
          && (MAX_PASSWORD_LENGTH <? Str.len (Str.strip p)) then
    (inl (ValueError "Password must be ≤400 characters"),
     assigned (Str.strip s) (Str.strip u) st)
  else
    (inr (Str.lower (Str.strip f), Str.strip s, Str.strip u, Str.strip p),
     assigned (Str.strip s) (Str.strip u) st).
Proof.
  unfold validate, get, getitem, get_default.
  rewrite row_function, row_system, row_username, row_password.
  cbn [default from_option id truth].
  destruct (negb (Str.truth f) || negb (Str.truth s) || negb (Str.truth u));
    [reflexivity|].
  run_monad.
  destruct (MAX_SYSTEM_LENGTH <? _); [reflexivity|].
  destruct (MAX_USERNAME_LENGTH <? _); [reflexivity|].
  destruct (bool_decide _ && _); reflexivity.
Qed.

Lemma dispatch_ignores_password function system username password password' st :
  function ≠ "set" →
  dispatch function system username password st
  = dispatch function system username password' st.
Proof.
  intros H. unfold dispatch. rewrite !bool_decide_false by exact H.
  reflexivity.
Qed.

Section ValidRow.

Variable display : bool.
Variables f s u p : string.
Variable extra : list string.
Variable st : state.

Hypothesis Hf : Str.truth f = true.
Hypothesis Hs : Str.truth s = true.
Hypothesis Hu : Str.truth u = true.
Hypothesis Ls : Str.len (Str.strip s) ≤ MAX_SYSTEM_LENGTH.
Hypothesis Lu : Str.len (Str.strip u) ≤ MAX_USERNAME_LENGTH.

Local Abbreviation system := (Str.strip s).
Local Abbreviation username := (Str.strip u).
Local Abbreviation st1 := (assigned (Str.strip s) (Str.strip u) st).

(** A valid [set] row. *)
Lemma row_step_set :
  Str.lower (Str.strip f) = "set" →
  Str.len (Str.strip p) ≤ MAX_PASSWORD_LENGTH →
  row_step display (row_of (f :: s :: u :: p :: extra)) st =
  (inr tt,
   success display ("SUCCESS: Set password for " +:+ system +:+ "/" +:+ username)
     (stored system username (Str.strip p) st1)).
Proof.
  intros Hfn Lp. apply row_step_ok. eapply row_try_ok.
  - apply validate_ok; auto.
  - apply dispatch_set, Hfn.
Qed.

(** A valid [get] row. *)
Lemma row_step_get :
  Str.lower (Str.strip f) = "get" →
  row_step display (row_of (f :: s :: u :: p :: extra)) st =
  (inr tt,
   success display
     ("SUCCESS: Get password for " +:+ system +:+ "/" +:+ username +:+ ": "
      +:+ format (store st !! (system, username)))
     (called (GetPassword system username) st1)).
Proof.
  intros Hfn. apply row_step_ok. eapply row_try_ok.
  - apply validate_ok; auto. rewrite Hfn. discriminate.
  - apply dispatch_get, Hfn.
Qed.

(** A valid [del] row on an entry the store holds. *)
Lemma row_step_del_present old :
  Str.lower (Str.strip f) = "del" →
  store st !! (system, username) = Some old →
  row_step display (row_of (f :: s :: u :: p :: extra)) st =
  (inr tt,
   success display
     ("SUCCESS: Deleted password for " +:+ system +:+ "/" +:+ username)
     (deleted system username st1)).
Proof.
  intros Hfn Hold. apply row_step_ok. eapply row_try_ok.
  - apply validate_ok; auto. rewrite Hfn. discriminate.
  - eapply dispatch_del_present; [exact Hfn|exact Hold].
Qed.

(** A valid [del] row on an entry the store does not hold. *)
Lemma row_step_del_absent :
  Str.lower (Str.strip f) = "del" →
  store st !! (system, username) = None →
  row_step display (row_of (f :: s :: u :: p :: extra)) st =
  (inr tt,
   failure display
     ("ERROR: " +:+ system +:+ "/" +:+ username +:+ " - " +:+ keyring.not_found)
     (called (DeletePassword system username) st1)).
Proof.
  intros Hfn Habsent.
  change keyring.not_found with (str (PasswordDeleteError keyring.not_found)).
  eapply row_step_caught;
    [eapply row_try_store_error;
       [apply validate_ok; auto; rewrite Hfn; discriminate
       | apply dispatch_del_absent; [exact Hfn|exact Habsent]]
    | reflexivity ..].
Qed.

End ValidRow.

(** * Further properties of [process_bulk_csv] *)

Lemma row_key_cells f s u rest :
  row_key (row_of (f :: s :: u :: rest)) = (Str.strip s, Str.strip u).
Proof. destruct rest; reflexivity. Qed.

Lemma required_cells f s u rest :
  truth (get (row_of (f :: s :: u :: rest)) "function") = Str.truth f
  ∧ truth (get (row_of (f :: s :: u :: rest)) "system") = Str.truth s
  ∧ truth (get (row_of (f :: s :: u :: rest)) "username") = Str.truth u.
Proof. destruct rest; repeat split. Qed.



(** X2: when the input file cannot be opened, the results file is not
    opened either and keeps its former content; no store operation is
    issued, the clipboard is not touched and no clearing thread is
    started; the failure is reported once, and the command line exits
    with status 1 while the form returns normally. *)
Theorem batch_missing_input_file path display st :
  files st !! path = None →
  ∃ msg st',
    process_bulk_csv path display st
    = (if display then inr tt else inl (SystemExit 1), st')
    ∧ out_file st' = out_file st
    ∧ calls st' = calls st
    ∧ store st' = store st
    ∧ clipboard st' = clipboard st
    ∧ timers st' = timers st
    ∧ stdout st' = stdout st
    ∧ (if display then label st' = label st ++ [(msg, true)]
                       ∧ stderr st' = stderr st
       else stderr st' = stderr st ++ [msg] ∧ label st' = label st).
Proof.
  intros Hfile. unfold process_bulk_csv.
  erewrite run_bind_ok by reflexivity.
  erewrite run_try_raise.
  2:{ apply run_bind_raise. unfold open_read. run_monad.
      cbn [files unassigned set_loc_username set_loc_system].
      rewrite Hfile. reflexivity. }
  rewrite fatal_run by reflexivity.
  eexists _, _. split; [reflexivity|].
  destruct display; cbn; repeat split.
Qed.

(** X2 at work: no file of that name. *)
Lemma batch_missing_input_file_witness :
  let st := set_out_file ["SUCCESS: Set password for old/run"]
              (fresh {[ ("svc", "alice") := "pw" ]} ∅) in
  ∃ msg st',
    process_bulk_csv "missing.csv" false st = (inl (SystemExit 1), st')
    ∧ out_file st' = ["SUCCESS: Set password for old/run"]
    ∧ calls st' = []
    ∧ stderr st' = [msg].
Proof.
  intros st.
  destruct (batch_missing_input_file "missing.csv" false st)
    as (msg & st' & Hrun & Hout & Hcalls & _ & _ & _ & _ & Herr & _).
  - reflexivity.
  - exists msg, st'. repeat split; assumption.
Defined.

(** X3: when the input file can be opened, the results file is written
    afresh: what it held before the call has no influence on anything the
    call does. *)
Theorem batch_results_file_is_fresh path file display old st :
  files st !! path = Some file →
  process_bulk_csv path display (set_out_file old st)
  = process_bulk_csv path display st.
Proof.
  intros Hfile.
  assert (∀ st0, files st0 !! path = Some file →
                 open_read path st0 = (inr file, st0)) as Hopen.
  { intros st0 H. unfold open_read. run_monad. rewrite H. reflexivity. }
  unfold process_bulk_csv.
  rewrite !(run_bind_ok _ _ _ tt (unassigned _)) by reflexivity.
  unfold try_except.
  rewrite (run_bind_ok _ _ _ _ _ (Hopen (unassigned (set_out_file old st)) Hfile)).
  rewrite (run_bind_ok _ _ _ _ _ (Hopen (unassigned st) Hfile)).
  rewrite !(run_bind_ok open_write _ _ tt (set_out_file [] _)) by reflexivity.
  reflexivity.
Qed.

(** X3 at work: two different former contents, the same run. *)
Lemma batch_results_file_is_fresh_witness :
  let st := fresh ∅ {[ "in.csv" := [HEADER; ["get"; "svc"; "alice"; EmptyString]] ]} in
  process_bulk_csv "in.csv" false (set_out_file ["ERROR: a/b - stale"] st)
  = process_bulk_csv "in.csv" false st
  ∧ out_file (snd (process_bulk_csv "in.csv" false
                     (set_out_file ["ERROR: a/b - stale"] st)))
    = ["SUCCESS: Get password for svc/alice: None"].
Proof.
  intros st.
  pose proof (batch_results_file_is_fresh "in.csv"
                [HEADER; ["get"; "svc"; "alice"; EmptyString]] false
                ["ERROR: a/b - stale"] st eq_refl) as H.
  split; [exact H|]. rewrite H. reflexivity.
Defined.


(** X4: [process_bulk_csv] lets no exception out except its own
    [sys.exit(1)]: called from the form it always returns normally, and
    on the command line it either returns normally or leaves with
    [SystemExit(1)], so the exit status is 0 or 1, whatever the path, the
    file and the store. *)
Theorem batch_never_propagates path st :
  fst (process_bulk_csv path true st) = inr tt
  ∧ (fst (process_bulk_csv path false st) = inr tt
     ∨ fst (process_bulk_csv path false st) = inl (SystemExit 1))
  ∧ (exit_code (fst (process_bulk_csv path false st)) = 0%Z
     ∨ exit_code (fst (process_bulk_csv path false st)) = 1%Z).
Proof.
  destruct (process_bulk_csv_effect path true st)
    as (r1 & st1 & cs1 & H1 & [-> | [? _]] & _); [|discriminate].
  destruct (process_bulk_csv_effect path false st)
    as (r2 & st2 & cs2 & H2 & [-> | [_ ->]] & _);
    rewrite H1, H2; cbn; auto.
Qed.

(** X5: a batch changes the store only at the pairs its rows name.  Every
    pair that is not the (trimmed system, trimmed username) of some row of
    the file holds after the call what it held before, in either mode and
    however the rows fare. *)
Theorem batch_store_frame path file display st k :
  files st !! path = Some file →
  (∀ row, row ∈ DictReader.rows file → row_key row ≠ k) →
  store (snd (process_bulk_csv path display st)) !! k = store st !! k.
Proof.
  intros Hfile Hk.
  destruct (process_bulk_csv_effect path display st)
    as (r & st' & cs & Hrun & _ & _ & _ & Hframe & _).
  rewrite Hrun. apply Hframe. intros file0 row E Hin.
  rewrite Hfile in E. injection E as <-. apply Hk, Hin.
Qed.

(** X5 at work: a batch that sets svc1/alice and deletes svc2/bob leaves
    svc3/carol alone. *)
Lemma batch_store_frame_witness :
  let file := [HEADER; ["set"; "svc1"; "alice"; "secret1"];
               ["del"; "svc2"; "bob"; EmptyString]] in
  let st := fresh {[ ("svc2", "bob") := "old"; ("svc3", "carol") := "keep" ]}
              {[ "in.csv" := file ]} in
  (∀ row, row ∈ DictReader.rows file → row_key row ≠ ("svc3", "carol"))
  ∧ store (snd (process_bulk_csv "in.csv" false st)) !! ("svc3", "carol")
    = Some "keep".
Proof.
  intros file st.
  assert (∀ row, row ∈ DictReader.rows file → row_key row ≠ ("svc3", "carol"))
    as Hk.
  { intros row Hin. vm_compute in Hin.
    apply list_elem_of_In in Hin. cbn in Hin.
    destruct Hin as [<- | [<- | []]]; vm_compute; discriminate. }
  split; [exact Hk|].
  rewrite (batch_store_frame "in.csv" file false st ("svc3", "carol") eq_refl Hk).
  reflexivity.
Defined.

(** X6: a batch issues at most one store operation per line of the
    results file, and writes at most one line per row; for an input file
    that cannot be opened it issues none.  Earlier operations stay
    recorded in the order they were issued. *)
Theorem batch_one_operation_per_line path display st :
  ∃ cs,
    calls (snd (process_bulk_csv path display st)) = calls st ++ cs
    ∧ match files st !! path with
      | None => cs = []
      | Some file =>
          length cs ≤ length (out_file (snd (process_bulk_csv path display st)))
          ∧ length (out_file (snd (process_bulk_csv path display st)))
            ≤ length (DictReader.rows file)
      end.
Proof.
  destruct (process_bulk_csv_effect path display st)
    as (r & st' & cs & Hrun & _ & Hc & Hcount & _).
  rewrite Hrun. exists cs. split; [exact Hc|].
  destruct (files st !! path); [exact Hcount|]. apply Hcount.
Qed.

(** X7: whatever the rows, every line the loop adds to the results file is
    also reported, in the same order: in the form each line is set on the
    label, with the error style exactly for the [ERROR:] lines; on the
    command line the [SUCCESS:] lines go to standard output and the
    [ERROR:] lines to standard error.  The loop touches neither the
    clipboard nor the clearing threads. *)
Theorem loop_reports_every_line display rows st :
  ∃ lines,
    let st' := snd (for_rows display rows st) in
    out_file st' = out_file st ++ lines
    ∧ length lines ≤ length rows
    ∧ label st' =
      label st ++ (if display then (λ l, (l, is_error_line l)) <$> lines
                   else [])
    ∧ stdout st' =
      stdout st ++ (if display then []
                    else List.filter (λ l, negb (is_error_line l)) lines)
    ∧ stderr st' =
      stderr st ++ (if display then [] else List.filter is_error_line lines)
    ∧ clipboard st' = clipboard st
    ∧ timers st' = timers st.
Proof.
  destruct (for_rows_effect display rows st)
    as (r & st' & lines & cs & Hrun & Hshape & Hlog & _).
  exists lines. rewrite Hrun. cbn [snd].
  destruct Hlog as (Ho & Hl & Hso & Hse & Hcl & Ht & _).
  repeat split; try assumption.
  destruct Hshape as [(_ & ->) | (_ & -> & _)]; cbn; lia.
Qed.

(** X8: when the first non-blank record of a batch under the right header
    lacks a required cell (an empty or missing function, system or
    username), the whole batch is given up, in either mode: the results
    file is left empty, no store operation is issued, the clipboard sweep
    is skipped, the failure is reported once, and the command line exits
    with status 1. *)
Theorem batch_first_record_missing_cell_aborts
    path records first rest display st :
  files st !! path = Some (HEADER :: records) →
  filter (λ r, r ≠ []) records = first :: rest →
  truth (get (row_of first) "function") = false
  ∨ truth (get (row_of first) "system") = false
  ∨ truth (get (row_of first) "username") = false →
  ∃ msg st',
    process_bulk_csv path display st
    = (if display then inr tt else inl (SystemExit 1), st')
    ∧ out_file st' = []
    ∧ calls st' = calls st
    ∧ store st' = store st
    ∧ clipboard st' = clipboard st
    ∧ timers st' = timers st
    ∧ stdout st' = stdout st
    ∧ (if display then label st' = label st ++ [(msg, true)]
       else stderr st' = stderr st ++ [msg]).
Proof.
  intros Hfile Hrows Hmiss.
  destruct (row_step_unassigned display (row_of first)
              (set_out_file [] (unassigned st)) eq_refl Hmiss)
    as (msg & _ & Hloop).
  unfold process_bulk_csv. erewrite run_bind_ok by reflexivity.
  erewrite run_try_raise.
  2:{ erewrite run_bind_ok.
      2:{ unfold open_read. run_monad.
          cbn [files unassigned set_loc_username set_loc_system].
          rewrite Hfile. reflexivity. }
      erewrite run_bind_ok by reflexivity.
      erewrite run_bind_ok by reflexivity.
      rewrite rows_of_file, Hrows. cbn [fmap list_fmap].
      apply run_bind_raise, Hloop. }
  rewrite fatal_run by reflexivity.
  eexists _, _. split; [reflexivity|].
  destruct display; cbn; repeat split.
Qed.

(** X8 at work: the first record has an empty function cell. *)
Lemma batch_first_record_missing_cell_aborts_witness :
  let records := [[EmptyString; "svc"; "alice"; EmptyString];
                  ["set"; "svc1"; "alice"; "secret1"]] in
  let st := fresh ∅ {[ "in.csv" := HEADER :: records ]} in
  truth (get (row_of [EmptyString; "svc"; "alice"; EmptyString]) "function")
  = false
  ∧ ∃ msg st',
      process_bulk_csv "in.csv" true st = (inr tt, st')
      ∧ out_file st' = []
      ∧ calls st' = []
      ∧ label st' = [(msg, true)].
Proof.
  intros records st. split; [reflexivity|].
  destruct (batch_first_record_missing_cell_aborts "in.csv" records
              [EmptyString; "svc"; "alice"; EmptyString]
              [["set"; "svc1"; "alice"; "secret1"]] true st)
    as (msg & st' & Hrun & Hout & Hcalls & _ & _ & _ & _ & Hlabel).
  - reflexivity.
  - reflexivity.
  - left. reflexivity.
  - exists msg, st'. repeat split; assumption.
Defined.

(** A row whose required cells are non-empty leaves both locals holding
    its own trimmed system and username, whatever becomes of the row. *)
Lemma row_step_present_locals display (row : gmap string value) st :
  truth (get row "function") = true → truth (get row "system") = true →
  truth (get row "username") = true →
  ∃ line st',
    row_step display row st = (inr tt, st')
    ∧ out_file st' = out_file st ++ [line]
    ∧ loc_system st' = Some (cell row "system")
    ∧ loc_username st' = Some (cell row "username").
Proof.
  intros Hf Hs Hu.
  destruct (validate_present_key row st Hf Hs Hu)
    as [(fn & pw & Hv) | (e & He & Hv)].
  - destruct (dispatch_effect fn (cell row "system") (cell row "username") pw
                (assigned (cell row "system") (cell row "username") st))
      as (r & st2 & cs & Hd & Hr & Hq & Hls & Hlu & _).
    destruct Hq as (Ho & _).
    destruct r as [e|res].
    + eexists _, _. split.
      { eapply row_step_caught;
          [eapply row_try_store_error; [exact Hv|exact Hd] | exact Hr
          | rewrite Hls; reflexivity | rewrite Hlu; reflexivity]. }
      rewrite out_file_failure, loc_system_failure, loc_username_failure,
        Ho, Hls, Hlu. repeat split.
    + eexists _, _. split.
      { apply row_step_ok. eapply row_try_ok; [exact Hv|exact Hd]. }
      rewrite out_file_success, loc_system_success, loc_username_success,
        Ho, Hls, Hlu. repeat split.
  - eexists _, _. split.
    { eapply row_step_caught;
        [apply row_try_invalid; exact Hv | exact He | reflexivity ..]. }
    rewrite out_file_failure, loc_system_failure, loc_username_failure.
    repeat split.
Qed.

(** X9: the failure line of a row that lacks a required cell does not name
    that row: it carries the trimmed system and username of the latest
    earlier row whose required cells were all non-empty (here the row just
    before it). *)
Theorem row_failure_names_previous_row display f s u cells row st :
  Str.truth f = true → Str.truth s = true → Str.truth u = true →
  truth (get row "function") = false ∨ truth (get row "system") = false
  ∨ truth (get row "username") = false →
  ∃ line st',
    for_rows display [row_of (f :: s :: u :: cells); row] st = (inr tt, st')
    ∧ out_file st' =
      out_file st ++
        [line;
         "ERROR: " +:+ Str.strip s +:+ "/" +:+ Str.strip u
         +:+ " - Missing required field(s): function, system, or username"].
Proof.
  intros Hf Hs Hu Hmiss.
  destruct (required_cells f s u cells) as (Rf & Rs & Ru).
  destruct (row_step_present_locals display (row_of (f :: s :: u :: cells)) st)
    as (line & st1 & Hrow & Ho & Hls & Hlu); try congruence.
  assert (cell (row_of (f :: s :: u :: cells)) "system" = Str.strip s) as Es
    by (destruct cells; reflexivity).
  assert (cell (row_of (f :: s :: u :: cells)) "username" = Str.strip u) as Eu
    by (destruct cells; reflexivity).
  rewrite Es in Hls. rewrite Eu in Hlu.
  eexists line, _. split.
  - cbn [for_rows]. rewrite (run_bind_ok _ _ _ _ _ Hrow).
    erewrite run_bind_ok; [reflexivity|].
    eapply row_step_caught;
      [apply row_try_invalid, validate_missing, Hmiss | reflexivity
      | exact Hls | exact Hlu].
  - rewrite out_file_failure, Ho, <- app_assoc. reflexivity.
Qed.

(** X9 at work: the second record has no system, and its failure is
    logged under svc1/alice. *)
Lemma row_failure_names_previous_row_witness :
  truth (get (row_of ["get"; EmptyString; "bob"; EmptyString]) "system") = false
  ∧ ∃ line st',
      for_rows false
        [row_of ["set"; "svc1"; "alice"; "secret1"];
         row_of ["get"; EmptyString; "bob"; EmptyString]] (fresh ∅ ∅)
      = (inr tt, st')
      ∧ out_file st' =
        [line;
         "ERROR: svc1/alice - Missing required field(s): function, system, or username"].
Proof.
  split; [reflexivity|].
  destruct (row_failure_names_previous_row false "set" "svc1" "alice"
              ["secret1"] (row_of ["get"; EmptyString; "bob"; EmptyString])
              (fresh ∅ ∅))
    as (line & st' & Hrun & Hout).
  - reflexivity.
  - reflexivity.
  - reflexivity.
  - right. left. reflexivity.
  - exists line, st'. split; [exact Hrun|exact Hout].
Defined.

(** * Further properties of one row *)

(** X10: a [set] row whose system and username pass their checks and whose
    trimmed password is longer than 400 characters yields a Failure outcome
    with the reason [Password must be ≤400 characters]; the store is not
    called and keeps what it held. *)
Theorem set_row_password_too_long display f s u p extra st :
  Str.truth f = true → Str.truth s = true → Str.truth u = true →
  Str.lower (Str.strip f) = "set" →
  Str.len (Str.strip s) ≤ MAX_SYSTEM_LENGTH →
  Str.len (Str.strip u) ≤ MAX_USERNAME_LENGTH →
  MAX_PASSWORD_LENGTH < Str.len (Str.strip p) →
  ∃ st',
    row_step display (row_of (f :: s :: u :: p :: extra)) st = (inr tt, st')
    ∧ out_file st' =
      out_file st ++ ["ERROR: " +:+ Str.strip s +:+ "/" +:+ Str.strip u
                      +:+ " - Password must be ≤400 characters"]
    ∧ calls st' = calls st
    ∧ store st' = store st.
Proof.
  intros Hf Hs Hu Hfn Ls%Nat.ltb_ge Lu%Nat.ltb_ge Lp%Nat.ltb_lt.
  eexists. split.
  - eapply row_step_caught;
      [apply row_try_invalid; rewrite validate_row_of, Hf, Hs, Hu, Ls, Lu, Lp;
       rewrite bool_decide_true by exact Hfn; reflexivity
      | reflexivity ..].
  - rewrite out_file_failure, calls_failure, store_failure. repeat split.
Qed.

(** X10 at work: a password of 401 letters. *)
Lemma set_row_password_too_long_witness :
  MAX_PASSWORD_LENGTH < Str.len (Str.strip (Str.times "x" 401))
  ∧ ∃ st',
      row_step false (row_of ["set"; "svc"; "alice"; Str.times "x" 401])
        (fresh ∅ ∅) = (inr tt, st')
      ∧ out_file st' = ["ERROR: svc/alice - Password must be ≤400 characters"]
      ∧ calls st' = [].
Proof.
  assert (MAX_PASSWORD_LENGTH < Str.len (Str.strip (Str.times "x" 401))) as L
    by (vm_compute; lia).
  split; [exact L|].
  destruct (set_row_password_too_long false "set" "svc" "alice"
              (Str.times "x" 401) [] (fresh ∅ ∅))
    as (st' & Hrun & Hout & Hcalls & _).
  - reflexivity.
  - reflexivity.
  - reflexivity.
  - reflexivity.
  - vm_compute. lia.
  - vm_compute. lia.
  - exact L.
  - exists st'. repeat split; assumption.
Defined.

(** X11: unless the operation word is [set], a row's password cell plays no
    part: two rows that differ only in their password cell and in the
    cells beyond it do exactly the same, whatever the other cells hold. *)
Theorem row_ignores_password_unless_set display f s u p p' extra extra' st :
  Str.lower (Str.strip f) ≠ "set" →
  row_step display (row_of (f :: s :: u :: p :: extra)) st
  = row_step display (row_of (f :: s :: u :: p' :: extra')) st.
Proof.
  intros Hfn. unfold row_step, row_try, try_except.
  rewrite !run_bind, !validate_row_of.
  rewrite !bool_decide_false by exact Hfn. cbn [andb].
  destruct (negb (Str.truth f) || negb (Str.truth s) || negb (Str.truth u));
    [reflexivity|].
  destruct (MAX_SYSTEM_LENGTH <? _); [reflexivity|].
  destruct (MAX_USERNAME_LENGTH <? _); [reflexivity|].
  rewrite !run_bind.
  rewrite (dispatch_ignores_password _ _ _ (Str.strip p) (Str.strip p'))
    by exact Hfn.
  reflexivity.
Qed.

(** X11 at work: a [get] row with a password cell of 401 letters does what
    the same row with an empty password cell does. *)
Lemma row_ignores_password_unless_set_witness :
  Str.lower (Str.strip "get") ≠ "set"
  ∧ row_step false (row_of ["get"; "svc"; "alice"; Str.times "x" 401])
      (fresh ∅ ∅)
    = row_step false (row_of ["get"; "svc"; "alice"; EmptyString]) (fresh ∅ ∅).
Proof.
  assert (Str.lower (Str.strip "get") ≠ "set") as H by discriminate.
  split; [exact H|].
  exact (row_ignores_password_unless_set false "get" "svc" "alice"
           (Str.times "x" 401) EmptyString [] [] (fresh ∅ ∅) H).
Defined.

(** The cells of a record with three fields: the password is [None]. *)
Lemma row_three_cells f s u :
  row_of [f; s; u] !! "function" = Some (VStr f)
  ∧ row_of [f; s; u] !! "system" = Some (VStr s)
  ∧ row_of [f; s; u] !! "username" = Some (VStr u)
  ∧ row_of [f; s; u] !! "password" = Some VNone.
Proof. repeat split. Qed.

(** X12: a record with exactly three cells (no password cell, not even an
    empty one) and non-empty function, system and username always fails,
    whatever its operation word and the lengths of its cells: the reason is
    that [None] has no [strip], and the store is not called. *)
Theorem row_with_three_cells_fails display f s u st :
  Str.truth f = true → Str.truth s = true → Str.truth u = true →
  ∃ st',
    row_step display (row_of [f; s; u]) st = (inr tt, st')
    ∧ out_file st' =
      out_file st ++ ["ERROR: " +:+ Str.strip s +:+ "/" +:+ Str.strip u
                      +:+ " - 'NoneType' object has no attribute 'strip'"]
    ∧ calls st' = calls st
    ∧ store st' = store st.
Proof.
  intros Hf Hs Hu.
  destruct (row_three_cells f s u) as (Ef & Es & Eu & Ep).
  eexists. split.
  - eapply row_step_caught;
      [apply row_try_invalid; unfold validate, get, getitem, get_default;
       rewrite Ef, Es, Eu, Ep; cbn [default from_option id truth];
       rewrite Hf, Hs, Hu; cbn [negb orb]; run_monad; reflexivity
      | reflexivity ..].
  - rewrite out_file_failure, calls_failure, store_failure. repeat split.
Qed.

(** X12 at work: the record [get,svc,alice], without the last comma. *)
Lemma row_with_three_cells_fails_witness :
  Str.truth "get" = true
  ∧ ∃ st',
      row_step false (row_of ["get"; "svc"; "alice"])
        (fresh {[ ("svc", "alice") := "pw" ]} ∅) = (inr tt, st')
      ∧ out_file st' =
        ["ERROR: svc/alice - 'NoneType' object has no attribute 'strip'"]
      ∧ calls st' = [].
Proof.
  split; [reflexivity|].
  destruct (row_with_three_cells_fails false "get" "svc" "alice"
              (fresh {[ ("svc", "alice") := "pw" ]} ∅))
    as (st' & Hrun & Hout & Hcalls & _).
  - reflexivity.
  - reflexivity.
  - reflexivity.
  - exists st'. repeat split; assumption.
Defined.

(** X13: a row is read through its trimmed cells and its lower-cased
    operation word only: two rows with non-empty function, system and
    username cells that agree after trimming (and, for the operation,
    after lower-casing) do exactly the same. *)
Theorem row_cells_are_normalised
    display f f' s s' u u' p p' extra extra' st :
  Str.truth f = true → Str.truth s = true → Str.truth u = true →
  Str.truth f' = true → Str.truth s' = true → Str.truth u' = true →
  Str.lower (Str.strip f) = Str.lower (Str.strip f') →
  Str.strip s = Str.strip s' → Str.strip u = Str.strip u' →
  Str.strip p = Str.strip p' →
  row_step display (row_of (f :: s :: u :: p :: extra)) st
  = row_step display (row_of (f' :: s' :: u' :: p' :: extra')) st.
Proof.
  intros Hf Hs Hu Hf' Hs' Hu' Ef Es Eu Ep.
  unfold row_step, row_try, try_except.
  rewrite !run_bind, !validate_row_of.
  rewrite Hf, Hs, Hu, Hf', Hs', Hu', Ef, Es, Eu, Ep. reflexivity.
Qed.

(** X13 at work: [ SET ,  svc ,alice , p@ss ] and [set,svc,alice,p@ss]. *)
Lemma row_cells_are_normalised_witness :
  Str.lower (Str.strip " SET ") = Str.lower (Str.strip "set")
  ∧ Str.strip "  svc " = Str.strip "svc"
  ∧ row_step false (row_of [" SET "; "  svc "; "alice "; " p@ss "]) (fresh ∅ ∅)
    = row_step false (row_of ["set"; "svc"; "alice"; "p@ss"]) (fresh ∅ ∅).
Proof.
  split; [reflexivity|]. split; [reflexivity|].
  apply (row_cells_are_normalised false " SET " "set" "  svc " "svc"
           "alice " "alice" " p@ss " "p@ss" [] [] (fresh ∅ ∅));
    reflexivity.
Defined.

(** * Rows one after the other *)

(** X14: in one batch, a [set] row, then a [del] row, then a second [del]
    row on the same pair: the first two succeed, the third fails with the
    store's description of a missing entry, and the store ends without an
    entry for the pair, whatever it held before. *)
Theorem batch_set_del_del display s u p st :
  Str.truth s = true → Str.truth u = true →
  Str.len (Str.strip s) ≤ MAX_SYSTEM_LENGTH →
  Str.len (Str.strip u) ≤ MAX_USERNAME_LENGTH →
  Str.len (Str.strip p) ≤ MAX_PASSWORD_LENGTH →
  let system := Str.strip s in
  let username := Str.strip u in
  ∃ st',
    for_rows display
      [row_of ["set"; s; u; p]; row_of ["del"; s; u; EmptyString];
       row_of ["del"; s; u; EmptyString]] st
    = (inr tt, st')
    ∧ out_file st' =
      out_file st ++
        ["SUCCESS: Set password for " +:+ system +:+ "/" +:+ username;
         "SUCCESS: Deleted password for " +:+ system +:+ "/" +:+ username;
         "ERROR: " +:+ system +:+ "/" +:+ username +:+ " - "
         +:+ keyring.not_found]
    ∧ store st' !! (system, username) = None.
Proof.
  intros Hs Hu Ls Lu Lp system username.
  pose proof (row_step_set display "set" s u p [] st eq_refl Hs Hu Ls Lu
                eq_refl Lp) as H1.
  set (st1 := success display _ _) in H1.
  assert (store st1 !! (system, username) = Some (Str.strip p)) as S1.
  { unfold st1. rewrite store_success. apply lookup_insert_eq. }
  pose proof (row_step_del_present display "del" s u EmptyString [] st1
                eq_refl Hs Hu Ls Lu (Str.strip p) eq_refl S1) as H2.
  set (st2 := success display _ _) in H2.
  assert (store st2 !! (system, username) = None) as S2.
  { unfold st2. rewrite store_success. apply lookup_delete_eq. }
  pose proof (row_step_del_absent display "del" s u EmptyString [] st2
                eq_refl Hs Hu Ls Lu eq_refl S2) as H3.
  set (st3 := failure display _ _) in H3.
  exists st3. split; [|split].
  - cbn [for_rows]. rewrite (run_bind_ok _ _ _ _ _ H1).
    rewrite (run_bind_ok _ _ _ _ _ H2). rewrite (run_bind_ok _ _ _ _ _ H3).
    reflexivity.
  - unfold st3. rewrite out_file_failure.
    cbn [out_file called assigned set_calls set_loc_username set_loc_system].
    unfold st2. rewrite out_file_success.
    cbn [out_file deleted called assigned set_store set_calls set_loc_username
           set_loc_system].
    unfold st1. rewrite out_file_success.
    cbn [out_file stored called assigned set_store set_calls set_loc_username
           set_loc_system].
    rewrite <- !app_assoc. reflexivity.
  - unfold st3. rewrite store_failure. exact S2.
Qed.

(** X14 at work on svc/alice with an older entry in the store. *)
Lemma batch_set_del_del_witness :
  Str.len (Str.strip "p@ss") ≤ MAX_PASSWORD_LENGTH
  ∧ ∃ st',
      for_rows false
        [row_of ["set"; "svc"; "alice"; "p@ss"];
         row_of ["del"; "svc"; "alice"; EmptyString];
         row_of ["del"; "svc"; "alice"; EmptyString]]
        (fresh {[ ("svc", "alice") := "old" ]} ∅)
      = (inr tt, st')
      ∧ out_file st' =
        ["SUCCESS: Set password for svc/alice";
         "SUCCESS: Deleted password for svc/alice";
         "ERROR: svc/alice - " +:+ keyring.not_found]
      ∧ store st' !! ("svc", "alice") = None.
Proof.
  assert (Str.len (Str.strip "p@ss") ≤ MAX_PASSWORD_LENGTH) as Lp
    by (vm_compute; lia).
  split; [exact Lp|].
  destruct (batch_set_del_del false "svc" "alice" "p@ss"
              (fresh {[ ("svc", "alice") := "old" ]} ∅))
    as (st' & Hrun & Hout & Hstore).
  - reflexivity.
  - reflexivity.
  - vm_compute. lia.
  - vm_compute. lia.
  - exact Lp.
  - exists st'. repeat split; assumption.
Defined.

(** X15: in one batch, two [set] rows on the same pair followed by a [get]
    row: the later password replaces the earlier one, and the [get] row
    reports the later one. *)
Theorem batch_last_set_wins display s u p1 p2 st :
  Str.truth s = true → Str.truth u = true →
  Str.len (Str.strip s) ≤ MAX_SYSTEM_LENGTH →
  Str.len (Str.strip u) ≤ MAX_USERNAME_LENGTH →
  Str.len (Str.strip p1) ≤ MAX_PASSWORD_LENGTH →
  Str.len (Str.strip p2) ≤ MAX_PASSWORD_LENGTH →
  let system := Str.strip s in
  let username := Str.strip u in
  ∃ st',
    for_rows display
      [row_of ["set"; s; u; p1]; row_of ["set"; s; u; p2];
       row_of ["get"; s; u; EmptyString]] st
    = (inr tt, st')
    ∧ out_file st' =
      out_file st ++
        ["SUCCESS: Set password for " +:+ system +:+ "/" +:+ username;
         "SUCCESS: Set password for " +:+ system +:+ "/" +:+ username;
         "SUCCESS: Get password for " +:+ system +:+ "/" +:+ username +:+ ": "
         +:+ Str.strip p2]
    ∧ store st' !! (system, username) = Some (Str.strip p2).
Proof.
  intros Hs Hu Ls Lu Lp1 Lp2 system username.
  pose proof (row_step_set display "set" s u p1 [] st eq_refl Hs Hu Ls Lu
                eq_refl Lp1) as H1.
  set (st1 := success display _ _) in H1.
  pose proof (row_step_set display "set" s u p2 [] st1 eq_refl Hs Hu Ls Lu
                eq_refl Lp2) as H2.
  set (st2 := success display _ _) in H2.
  assert (store st2 !! (system, username) = Some (Str.strip p2)) as S2.
  { unfold st2. rewrite store_success. apply lookup_insert_eq. }
  pose proof (row_step_get display "get" s u EmptyString [] st2
                eq_refl Hs Hu Ls Lu eq_refl) as H3.
  fold system username in H3. rewrite S2 in H3.
  set (st3 := success display _ _) in H3.
  exists st3. split; [|split].
  - cbn [for_rows]. rewrite (run_bind_ok _ _ _ _ _ H1).
    rewrite (run_bind_ok _ _ _ _ _ H2). rewrite (run_bind_ok _ _ _ _ _ H3).
    reflexivity.
  - unfold st3. rewrite out_file_success.
    cbn [out_file called assigned set_calls set_loc_username set_loc_system].
    unfold st2. rewrite out_file_success.
    cbn [out_file stored called assigned set_store set_calls set_loc_username
           set_loc_system].
    unfold st1. rewrite out_file_success.
    cbn [out_file stored called assigned set_store set_calls set_loc_username
           set_loc_system].
    rewrite <- !app_assoc. reflexivity.
  - unfold st3. rewrite store_success.
    cbn [store called assigned set_calls set_loc_username set_loc_system].
    exact S2.
Qed.

(** X15 at work: first and second, then a get. *)
Lemma batch_last_set_wins_witness :
  Str.len (Str.strip "second") ≤ MAX_PASSWORD_LENGTH
  ∧ ∃ st',
      for_rows false
        [row_of ["set"; "svc"; "alice"; "first"];
         row_of ["set"; "svc"; "alice"; "second"];
         row_of ["get"; "svc"; "alice"; EmptyString]] (fresh ∅ ∅)
      = (inr tt, st')
      ∧ out_file st' =
        ["SUCCESS: Set password for svc/alice";
         "SUCCESS: Set password for svc/alice";
         "SUCCESS: Get password for svc/alice: second"]
      ∧ store st' !! ("svc", "alice") = Some "second".
Proof.
  assert (Str.len (Str.strip "second") ≤ MAX_PASSWORD_LENGTH) as Lp
    by (vm_compute; lia).
  split; [exact Lp|].
  destruct (batch_last_set_wins false "svc" "alice" "first" "second"
              (fresh ∅ ∅))
    as (st' & Hrun & Hout & Hstore).
  - reflexivity.
  - reflexivity.
  - vm_compute. lia.
  - vm_compute. lia.
  - vm_compute. lia.
  - exact Lp.
  - exists st'. repeat split; assumption.
Defined.

(** * Further properties of the command line *)

(** X16: on the command line, [get] does not tell a stored empty password
    from a missing entry: in both cases it prints
    [Get password for <system>/<username>: No password found] on standard
    output, prints nothing on standard error, leaves the store as it was
    and exits with status 0. *)
Theorem cli_get_empty_password system username st :
  store st !! (system, username) = None
  ∨ store st !! (system, username) = Some EmptyString →
  let run := main (Args None (Some (CmdGet system username))) st in
  fst run = 0%Z
  ∧ stdout (snd run) =
    stdout st ++ ["Get password for " +:+ system +:+ "/" +:+ username
                  +:+ ": No password found"]
  ∧ stderr (snd run) = stderr st
  ∧ store (snd run) = store st.
Proof.
  intros H. unfold main, cli_handler. cbn [bulk cmd].
  erewrite run_try_ok.
  2:{ rewrite (run_bind_ok _ _ _ _ _ (get_password_run system username st)).
      reflexivity. }
  cbn [fst snd]. destruct H as [-> | ->]; repeat split.
Qed.

(** X16 at work: an entry whose password is the empty string. *)
Lemma cli_get_empty_password_witness :
  let st := fresh {[ ("svc", "alice") := EmptyString ]} ∅ in
  store st !! ("svc", "alice") = Some EmptyString
  ∧ fst (main (Args None (Some (CmdGet "svc" "alice"))) st) = 0%Z
  ∧ stdout (snd (main (Args None (Some (CmdGet "svc" "alice"))) st))
    = ["Get password for svc/alice: No password found"].
Proof.
  intros st.
  assert (store st !! ("svc", "alice") = Some EmptyString) as H by reflexivity.
  split; [exact H|].
  destruct (cli_get_empty_password "svc" "alice" st (or_intror H))
    as (Hexit & Hout & _).
  split; [exact Hexit|exact Hout].
Defined.

(** X17: on the command line, [set] followed by [get] on the same pair, in
    two runs that share the store: the second run prints the password the
    first one stored, for every system and username and every non-empty
    password, taken as they are given (nothing is trimmed or bounded); both
    runs exit with status 0. *)
Theorem cli_set_then_get system username password st :
  Str.truth password = true →
  let st1 := snd (main (Args None (Some (CmdSet system username password))) st) in
  let run := main (Args None (Some (CmdGet system username))) st1 in
  fst (main (Args None (Some (CmdSet system username password))) st) = 0%Z
  ∧ store st1 !! (system, username) = Some password
  ∧ fst run = 0%Z
  ∧ stdout (snd run) =
    stdout st1 ++ ["Get password for " +:+ system +:+ "/" +:+ username +:+ ": "
                   +:+ password].
Proof.
  intros Hp st1 run.
  assert (main (Args None (Some (CmdSet system username password))) st
          = (0%Z,
             set_stdout
               (stdout st ++ ["Password set for " +:+ Str.quote +:+ system
                              +:+ "/" +:+ username +:+ Str.quote +:+ "."])
               (stored system username password st))) as Hset.
  { unfold main, cli_handler. cbn [bulk cmd].
    erewrite run_try_ok.
    2:{ rewrite (run_bind_ok _ _ _ _ _ (set_password_run _ _ _ st)).
        reflexivity. }
    reflexivity. }
  assert (store st1 !! (system, username) = Some password) as Hstored.
  { unfold st1. rewrite Hset. cbn. apply lookup_insert_eq. }
  split; [rewrite Hset; reflexivity|]. split; [exact Hstored|].
  unfold run, main, cli_handler. cbn [bulk cmd].
  erewrite run_try_ok.
  2:{ rewrite (run_bind_ok _ _ _ _ _ (get_password_run system username st1)).
      rewrite Hstored. reflexivity. }
  destruct password as [|c password]; [discriminate|]. split; reflexivity.
Qed.

(** X17 at work: an untrimmed system name is kept as it is. *)
Lemma cli_set_then_get_witness :
  Str.truth "p@ss" = true
  ∧ stdout (snd (main (Args None (Some (CmdGet " svc " "alice")))
                   (snd (main (Args None (Some (CmdSet " svc " "alice" "p@ss")))
                           (fresh ∅ ∅)))))
    = ["Password set for " +:+ Str.quote +:+ " svc /alice" +:+ Str.quote +:+ ".";
       "Get password for  svc /alice: p@ss"].
Proof.
  split; [reflexivity|].
  destruct (cli_set_then_get " svc " "alice" "p@ss" (fresh ∅ ∅) eq_refl)
    as (_ & _ & _ & Hout).
  rewrite Hout. reflexivity.
Defined.

(** * Further properties of the v1.0 scripts *)

(** X18: [del_cred.py] never fails: whatever the store holds, its [main]
    returns normally and the process exits with status 0 with nothing on
    standard error; afterwards the store has no entry for the pair, and
    every other pair holds what it held. *)
Theorem v1_del_cred_always_succeeds system username st :
  ∃ st',
    V1.del_cred system username st = (inr tt, st')
    ∧ fst (V1.run (V1.del_cred system username) st) = 0%Z
    ∧ stderr st' = stderr st
    ∧ store st' !! (system, username) = None
    ∧ ∀ k, k ≠ (system, username) → store st' !! k = store st !! k.
Proof.
  unfold V1.run, V1.del_cred.
  destruct (store st !! (system, username)) as [old|] eqn:H.
  - erewrite run_try_ok.
    2:{ erewrite run_bind_ok by (eapply delete_password_present, H).
        reflexivity. }
    eexists. split; [reflexivity|]. cbn. split; [reflexivity|].
    split; [reflexivity|]. split; [apply lookup_delete_eq|].
    intros k Hk. apply lookup_delete_ne. congruence.
  - erewrite run_try_raise.
    2:{ apply run_bind_raise, delete_password_absent, H. }
    cbn [is_PasswordDeleteError]. eexists. split; [reflexivity|]. cbn.
    repeat split. exact H.
Qed.

(** * The form *)

(** ** Running a method *)

Lemma form_bind {A B : Type} (m : Form.G A) (k : A → Form.G B) ws :
  (m ≫= k) ws =
  match m ws with
  | (inr x, ws') => k x ws'
  | (inl e, ws') => (inl e, ws')
  end.
Proof. reflexivity. Qed.

Lemma form_bind_ok {A B : Type} (m : Form.G A) (k : A → Form.G B) ws x ws' :
  m ws = (inr x, ws') → (m ≫= k) ws = k x ws'.
Proof. intros H. rewrite form_bind, H. reflexivity. Qed.

Lemma form_try_ok {A : Type} (m : Form.G A) h ws x ws' :
  m ws = (inr x, ws') → Form.try_except m h ws = (inr x, ws').
Proof. intros H. unfold Form.try_except. rewrite H. reflexivity. Qed.

Lemma form_try_raise {A : Type} (m : Form.G A) h ws e ws' :
  m ws = (inl e, ws') → Form.try_except m h ws = h e ws'.
Proof. intros H. unfold Form.try_except. rewrite H. reflexivity. Qed.

Lemma form_lift_run {A : Type} (m : M A) w st r st' :
  m st = (r, st') → Form.lift m (w, st) = (r, (w, st')).
Proof. intros H. unfold Form.lift. cbn [fst snd]. rewrite H. reflexivity. Qed.

Lemma set_result_run text is_error w st :
  Form.set_result text is_error (w, st) = (inr tt, (w, shown text is_error st)).
Proof. reflexivity. Qed.

(** Unfolds the operations of a method and reduces what they leave. *)
Ltac run_form :=
  repeat progress
    (unfold mbind, Form.G_bind, mret, Form.G_ret, Form.read, Form.widget,
       Form.set_result, Form.lift, KeyringApp.set_result_display, modify;
     cbv beta iota; cbn [fst snd]).

(** ** [validate_inputs] *)

(** [validate_inputs] never raises; it sets the Go button and one text on
    the label, and nothing else. *)
Lemma validate_inputs_run w st :
  ∃ text is_error,
    Form.validate_inputs (w, st)
    = (inr tt, (go_set (form_valid w) w, shown text is_error st))
    ∧ (text = "Ready" ↔ form_valid w = true)
    ∧ (form_valid w = true → is_error = false).
Proof.
  unfold Form.validate_inputs, form_valid. run_form.
  destruct (Str.truth (Str.strip (Form.system_text w)));
    destruct (Str.len (Str.strip (Form.system_text w)) <=? MAX_SYSTEM_LENGTH);
    destruct (Str.truth (Str.strip (Form.username_text w)));
    destruct (Str.len (Str.strip (Form.username_text w)) <=? MAX_USERNAME_LENGTH);
    destruct (bool_decide (Form.function_radio w = Form.RadioSet));
    destruct (Str.truth (Str.strip (Form.password_text w)));
    destruct (Str.len (Str.strip (Form.password_text w)) <=? MAX_PASSWORD_LENGTH);
    cbn [andb negb orb app];
    eexists _, _; (split; [reflexivity|]);
    (split; [split; intros H; try reflexivity; try discriminate H
            | intros H; try reflexivity; try discriminate H]).
Qed.

Lemma form_valid_spec w :
  form_valid w = true ↔
  (Str.truth (Str.strip (Form.system_text w)) = true
   ∧ Str.len (Str.strip (Form.system_text w)) ≤ MAX_SYSTEM_LENGTH
   ∧ Str.truth (Str.strip (Form.username_text w)) = true
   ∧ Str.len (Str.strip (Form.username_text w)) ≤ MAX_USERNAME_LENGTH
   ∧ (Form.function_radio w = Form.RadioSet →
      Str.truth (Str.strip (Form.password_text w)) = true
      ∧ Str.len (Str.strip (Form.password_text w)) ≤ MAX_PASSWORD_LENGTH)).
Proof.
  unfold form_valid. cbv zeta.
  rewrite !andb_true_iff, !Nat.leb_le.
  case_bool_decide as Hset.
  - rewrite andb_true_iff, Nat.leb_le. tauto.
  - split; [intros ((H1 & H2) & _); repeat split; tauto|tauto].
Qed.

(** X19: [validate_inputs] never raises and touches nothing but the Go
    button and the label.  Afterwards Go is enabled (and green) exactly
    when the trimmed system and username are non-empty and within 254 and
    32 characters and, with Set selected, the trimmed password is non-empty
    and within 400 characters; the label reads [Ready] exactly when Go is
    enabled, and carries the error style only when Go is disabled. *)
Theorem form_ready_iff_go_enabled w st :
  ∃ w' st' text is_error,
    Form.validate_inputs (w, st) = (inr tt, (w', st'))
    ∧ label st' = label st ++ [(text, is_error)]
    ∧ store st' = store st ∧ calls st' = calls st
    ∧ clipboard st' = clipboard st
    ∧ Form.set_go_styled (Form.go_styled w) (Form.set_go_enabled (Form.go_enabled w) w')
      = w
    ∧ Form.go_styled w' = Form.go_enabled w'
    ∧ (Form.go_enabled w' = true ↔
       Str.truth (Str.strip (Form.system_text w)) = true
       ∧ Str.len (Str.strip (Form.system_text w)) ≤ MAX_SYSTEM_LENGTH
       ∧ Str.truth (Str.strip (Form.username_text w)) = true
       ∧ Str.len (Str.strip (Form.username_text w)) ≤ MAX_USERNAME_LENGTH
       ∧ (Form.function_radio w = Form.RadioSet →
          Str.truth (Str.strip (Form.password_text w)) = true
          ∧ Str.len (Str.strip (Form.password_text w)) ≤ MAX_PASSWORD_LENGTH))
    ∧ (text = "Ready" ↔ Form.go_enabled w' = true)
    ∧ (is_error = true → Form.go_enabled w' = false).
Proof.
  destruct (validate_inputs_run w st) as (text & is_error & Hrun & Hready & Herr).
  exists (go_set (form_valid w) w), (shown text is_error st), text, is_error.
  split; [exact Hrun|]. cbn [label store calls clipboard shown set_label go_set
    Form.go_enabled Form.go_styled Form.set_go_enabled Form.set_go_styled].
  split; [reflexivity|]. split; [reflexivity|]. split; [reflexivity|].
  split; [reflexivity|]. split; [destruct w; reflexivity|].
  split; [reflexivity|]. split; [apply form_valid_spec|].
  split; [exact Hready|].
  intros ->. destruct (form_valid w); [|reflexivity].
  specialize (Herr eq_refl). discriminate.
Qed.

(** ** [execute_action], branch by branch *)

(** Setting the text of the password field: nothing happens when the text
    is the one the field holds; otherwise the text is set and
    [validate_inputs] runs on the new window. *)
Lemma password_setText_run text w st :
  (text = Form.password_text w
   ∧ Form.password_setText text (w, st) = (inr tt, (w, st)))
  ∨ (text ≠ Form.password_text w
     ∧ ∃ shown_text is_error,
         Form.password_setText text (w, st)
         = (inr tt,
            (go_set (form_valid (Form.set_password_text text w))
               (Form.set_password_text text w),
             shown shown_text is_error st))).
Proof.
  destruct (decide (text = Form.password_text w)) as [E|E].
  - left. split; [exact E|].
    unfold Form.password_setText. rewrite form_bind. unfold Form.read.
    cbn [fst snd]. rewrite bool_decide_true by exact E. reflexivity.
  - right. split; [exact E|].
    destruct (validate_inputs_run (Form.set_password_text text w) st)
      as (t & e & Hrun & _).
    exists t, e.
    unfold Form.password_setText. rewrite form_bind. unfold Form.read.
    cbn [fst snd]. rewrite bool_decide_false by exact E.
    rewrite form_bind. unfold Form.widget. cbn [fst snd]. exact Hrun.
Qed.

Section Action.

Variable w : Form.window.
Variable st : state.

Local Abbreviation system := (Str.strip (Form.system_text w)).
Local Abbreviation username := (Str.strip (Form.username_text w)).
Local Abbreviation password := (Str.strip (Form.password_text w)).

(** Set selected, blank password: the store is not called. *)
Lemma execute_action_set_blank :
  Form.function_radio w = Form.RadioSet →
  Str.truth password = false →
  Form.execute_action (w, st)
  = (inr tt, (w, shown "Error: Password cannot be empty" true st)).
Proof.
  intros Hr Hp. unfold Form.execute_action, Form.try_except. run_form.
  rewrite Hr, Hp. reflexivity.
Qed.

(** Set selected, a password: it is stored. *)
Lemma execute_action_set :
  Form.function_radio w = Form.RadioSet →
  Str.truth password = true →
  Form.execute_action (w, st)
  = (inr tt,
     (Form.set_copy_enabled false w,
      shown "Password set successfully" false
        (stored system username password st))).
Proof.
  intros Hr Hp. unfold Form.execute_action, Form.try_except. run_form.
  rewrite Hr, Hp. reflexivity.
Qed.

(** Delete selected, an entry the store holds. *)
Lemma execute_action_del_present old :
  Form.function_radio w = Form.RadioDel →
  store st !! (system, username) = Some old →
  Form.execute_action (w, st)
  = (inr tt,
     (Form.set_copy_enabled false w,
      shown "Password deleted successfully" false
        (deleted system username st))).
Proof.
  intros Hr Hold. unfold Form.execute_action, Form.try_except. run_form.
  rewrite Hr. run_form.
  rewrite (delete_password_present _ _ old st Hold). reflexivity.
Qed.

(** Delete selected, no entry: the store's error is shown. *)
Lemma execute_action_del_absent :
  Form.function_radio w = Form.RadioDel →
  store st !! (system, username) = None →
  Form.execute_action (w, st)
  = (inr tt,
     (w,
      shown ("Error: " +:+ keyring.not_found) true
        (called (DeletePassword system username) st))).
Proof.
  intros Hr Habsent. unfold Form.execute_action, Form.try_except. run_form.
  rewrite Hr. run_form.
  rewrite (delete_password_absent _ _ st Habsent). reflexivity.
Qed.

(** Get selected, no entry or an empty password. *)
Lemma execute_action_get_nothing :
  Form.function_radio w = Form.RadioGet →
  store st !! (system, username) = None
  ∨ store st !! (system, username) = Some EmptyString →
  Form.execute_action (w, st)
  = (inr tt,
     (Form.set_copy_enabled false w,
      shown "No password found" true
        (called (GetPassword system username) st))).
Proof.
  intros Hr H. unfold Form.execute_action, Form.try_except. run_form.
  rewrite Hr. run_form. rewrite get_password_run.
  destruct H as [-> | ->]; reflexivity.
Qed.

(** Get selected, a password found: it is put in the password field. *)
Lemma execute_action_get_found c found :
  Form.function_radio w = Form.RadioGet →
  store st !! (system, username) = Some (String c found) →
  ∃ w1 st1,
    Form.password_setText (String c found)
      (w, called (GetPassword system username) st) = (inr tt, (w1, st1))
    ∧ Form.execute_action (w, st)
      = (inr tt,
         (Form.set_copy_enabled true w1,
          shown "Password retrieved successfully" false st1)).
Proof.
  intros Hr H.
  assert (∃ w1 st1,
            Form.password_setText (String c found)
              (w, called (GetPassword system username) st) = (inr tt, (w1, st1)))
    as (w1 & st1 & Hset).
  { destruct (password_setText_run (String c found) w
                (called (GetPassword system username) st))
      as [(_ & Hrun) | (_ & t & e & Hrun)]; eauto. }
  exists w1, st1. split; [exact Hset|].
  unfold Form.execute_action, Form.try_except. run_form.
  rewrite Hr. run_form. rewrite get_password_run, H. run_form.
  rewrite Hset. reflexivity.
Qed.

End Action.

(** ** Properties of the form's methods *)

Lemma truth_len s : Str.truth s = true → 1 ≤ Str.len s.
Proof. destruct s; [discriminate|]. intros _. cbn. lia. Qed.

(** What setting the password text leaves alone. *)
Lemma password_setText_frame text w st :
  ∃ w' st',
    Form.password_setText text (w, st) = (inr tt, (w', st'))
    ∧ Form.password_text w' = text
    ∧ Form.system_text w' = Form.system_text w
    ∧ Form.username_text w' = Form.username_text w
    ∧ Form.function_radio w' = Form.function_radio w
    ∧ Form.password_shown w' = Form.password_shown w
    ∧ Form.reveal_checked w' = Form.reveal_checked w
    ∧ Form.closed w' = Form.closed w
    ∧ store st' = store st ∧ calls st' = calls st
    ∧ clipboard st' = clipboard st ∧ timers st' = timers st
    ∧ out_file st' = out_file st ∧ stderr st' = stderr st.
Proof.
  destruct (password_setText_run text w st)
    as [(E & Hrun) | (_ & t & e & Hrun)].
  - exists w, st. split; [exact Hrun|]. rewrite E. repeat split.
  - eexists _, _. split; [exact Hrun|]. repeat split.
Qed.

(** X20: [execute_action] never raises: every error of the store ends as a
    text on the label.  It leaves the system and username fields and the
    selected function as they are, issues at most one store operation, can
    change the store only at the pair of the trimmed system and username,
    and touches neither the clipboard, nor the clearing threads, nor the
    results file. *)
Theorem form_execute_action_never_raises w st :
  ∃ w' st' cs,
    Form.execute_action (w, st) = (inr tt, (w', st'))
    ∧ Form.system_text w' = Form.system_text w
    ∧ Form.username_text w' = Form.username_text w
    ∧ Form.function_radio w' = Form.function_radio w
    ∧ calls st' = calls st ++ cs ∧ length cs ≤ 1
    ∧ (∀ k, k ≠ (Str.strip (Form.system_text w),
                 Str.strip (Form.username_text w)) →
            store st' !! k = store st !! k)
    ∧ clipboard st' = clipboard st ∧ timers st' = timers st
    ∧ out_file st' = out_file st.
Proof.
  destruct (Form.function_radio w) eqn:Hr.
  - destruct (Str.truth (Str.strip (Form.password_text w))) eqn:Hp.
    + eexists _, _, [_]. split; [apply execute_action_set; assumption|].
      cbn. repeat split; try lia; try assumption.
      intros k Hk. apply lookup_insert_ne. congruence.
    + eexists _, _, []. split; [apply execute_action_set_blank; assumption|].
      cbn. rewrite app_nil_r. repeat split; try lia; try assumption.
  - destruct (store st !! (Str.strip (Form.system_text w),
                           Str.strip (Form.username_text w)))
      as [[|c found]|] eqn:H.
    + eexists _, _, [_]. split; [apply execute_action_get_nothing; auto|].
      cbn. repeat split; try lia; try assumption.
    + destruct (execute_action_get_found w st c found Hr H)
        as (w1 & st1 & Hset & Hrun).
      destruct (password_setText_frame (String c found) w
                  (called (GetPassword (Str.strip (Form.system_text w))
                             (Str.strip (Form.username_text w))) st))
        as (w1' & st1' & Hset' & _ & Hsy & Hus & Hfn & _ & _ & _
            & Hst & Hc & Hcl & Ht & Ho & _).
      rewrite Hset in Hset'. injection Hset' as <- <-.
      eexists _, _, [_]. split; [exact Hrun|].
      cbn. rewrite Hsy, Hus, Hfn, Hst, Hc, Hcl, Ht, Ho.
      cbn. repeat split; try lia; try assumption.
    + eexists _, _, [_]. split; [apply execute_action_get_nothing; auto|].
      cbn. repeat split; try lia; try assumption.
  - destruct (store st !! (Str.strip (Form.system_text w),
                           Str.strip (Form.username_text w)))
      as [old|] eqn:H.
    + eexists _, _, [_].
      split; [eapply execute_action_del_present; eassumption|].
      cbn. repeat split; try lia; try assumption.
      intros k Hk. apply lookup_delete_ne. congruence.
    + eexists _, _, [_].
      split; [apply execute_action_del_absent; assumption|].
      cbn. repeat split; try lia; try assumption.
Qed.

(** X21: with Set selected and a password field that is empty after
    trimming, [execute_action] does not call the store: it sets
    [Error: Password cannot be empty] on the label with the error style
    and changes nothing else. *)
Theorem form_set_blank_password w st :
  Form.function_radio w = Form.RadioSet →
  Str.truth (Str.strip (Form.password_text w)) = false →
  ∃ st',
    Form.execute_action (w, st) = (inr tt, (w, st'))
    ∧ label st' = label st ++ [("Error: Password cannot be empty", true)]
    ∧ calls st' = calls st
    ∧ store st' = store st.
Proof.
  intros Hr Hp. eexists. split; [apply execute_action_set_blank; assumption|].
  repeat split.
Qed.

(** X21 at work: a password of three spaces. *)
Lemma form_set_blank_password_witness :
  let w := Form.set_function_radio Form.RadioSet
             (Form.set_password_text "   "
                (Form.set_username_text "alice"
                   (Form.set_system_text "svc" Form.initial))) in
  Str.truth (Str.strip (Form.password_text w)) = false
  ∧ ∃ st',
      Form.execute_action (w, fresh ∅ ∅) = (inr tt, (w, st'))
      ∧ label st' = [("Error: Password cannot be empty", true)]
      ∧ calls st' = [].
Proof.
  intros w. split; [reflexivity|].
  destruct (form_set_blank_password w (fresh ∅ ∅))
    as (st' & Hrun & Hlabel & Hcalls & _).
  - reflexivity.
  - reflexivity.
  - exists st'. repeat split; assumption.
Defined.

(** X22: what the form stores respects the limits.  With Set selected,
    when [validate_inputs] leaves Go enabled, [execute_action] stores the
    trimmed password under the trimmed system and username, and all three
    are non-empty and within 254, 32 and 400 characters. *)
Theorem form_stores_within_limits w st w1 st1 :
  Form.function_radio w = Form.RadioSet →
  Form.validate_inputs (w, st) = (inr tt, (w1, st1)) →
  Form.go_enabled w1 = true →
  let system := Str.strip (Form.system_text w) in
  let username := Str.strip (Form.username_text w) in
  let password := Str.strip (Form.password_text w) in
  ∃ w2 st2,
    Form.execute_action (w1, st1) = (inr tt, (w2, st2))
    ∧ calls st2 = calls st ++ [SetPassword system username password]
    ∧ store st2 = <[(system, username) := password]> (store st)
    ∧ 1 ≤ Str.len system ≤ MAX_SYSTEM_LENGTH
    ∧ 1 ≤ Str.len username ≤ MAX_USERNAME_LENGTH
    ∧ 1 ≤ Str.len password ≤ MAX_PASSWORD_LENGTH.
Proof.
  intros Hr Hrun Hgo system username password.
  destruct (validate_inputs_run w st) as (t & e & Hrun' & _).
  rewrite Hrun in Hrun'. injection Hrun' as -> ->.
  cbn in Hgo. apply form_valid_spec in Hgo
    as (Ts & Ls & Tu & Lu & Hpw). destruct (Hpw Hr) as (Tp & Lp).
  eexists _, _. split.
  - apply execute_action_set; [exact Hr|exact Tp].
  - cbn. fold system username password.
    pose proof (truth_len _ Ts). pose proof (truth_len _ Tu).
    pose proof (truth_len _ Tp). repeat split; assumption.
Qed.

(** X22 at work: svc, alice and p@ss, each between spaces. *)
Lemma form_stores_within_limits_witness :
  let w := Form.set_function_radio Form.RadioSet
             (Form.set_password_text " p@ss "
                (Form.set_username_text " alice "
                   (Form.set_system_text " svc " Form.initial))) in
  ∃ w1 st1 w2 st2,
    Form.validate_inputs (w, fresh ∅ ∅) = (inr tt, (w1, st1))
    ∧ Form.go_enabled w1 = true
    ∧ Form.execute_action (w1, st1) = (inr tt, (w2, st2))
    ∧ calls st2 = [SetPassword "svc" "alice" "p@ss"].
Proof.
  intros w.
  destruct (validate_inputs_run w (fresh ∅ ∅)) as (t & e & Hrun & _).
  destruct (form_stores_within_limits w (fresh ∅ ∅) _ _ eq_refl Hrun eq_refl)
    as (w2 & st2 & Hact & Hcalls & _).
  eexists _, _, w2, st2. split; [exact Hrun|]. split; [reflexivity|].
  split; [exact Hact|exact Hcalls].
Defined.

Lemma copy_to_clipboard_run text st :
  Str.truth text = true →
  KeyringApp.copy_to_clipboard text st
  = (inr tt,
     set_timers (timers st ++ [30])
       (shown ("Password copied" +:+ Str.newline +:+ "(auto clear in 30s)")
          false (set_clipboard text st))).
Proof.
  intros H. unfold KeyringApp.copy_to_clipboard. rewrite H. reflexivity.
Qed.

(** X23: with Get selected and a non-empty password stored for the
    trimmed system and username, [execute_action] puts the password in the
    password field and enables Copy, and a following [copy_to_clipboard]
    puts exactly that password on the clipboard and starts the
    thirty-second clearing thread; the store is only read. *)
Theorem form_get_then_copy w st found :
  Form.function_radio w = Form.RadioGet →
  store st !! (Str.strip (Form.system_text w),
               Str.strip (Form.username_text w)) = Some found →
  Str.truth found = true →
  ∃ w' st',
    (Form.execute_action;; Form.copy_to_clipboard) (w, st) = (inr tt, (w', st'))
    ∧ Form.password_text w' = found
    ∧ Form.copy_enabled w' = true
    ∧ clipboard st' = found
    ∧ timers st' = timers st ++ [30]
    ∧ store st' = store st
    ∧ calls st' =
      calls st ++ [GetPassword (Str.strip (Form.system_text w))
                     (Str.strip (Form.username_text w))].
Proof.
  intros Hr H Hfound. destruct found as [|c found]; [discriminate|].
  destruct (execute_action_get_found w st c found Hr H)
    as (w1 & st1 & Hset & Hrun).
  destruct (password_setText_frame (String c found) w
              (called (GetPassword (Str.strip (Form.system_text w))
                         (Str.strip (Form.username_text w))) st))
    as (w1' & st1' & Hset' & Hpw & _ & _ & _ & _ & _ & _
        & Hst & Hc & Hcl & Ht & _).
  rewrite Hset in Hset'. injection Hset' as <- <-.
  eexists _, _. split.
  - rewrite (form_bind_ok _ _ _ _ _ Hrun).
    unfold Form.copy_to_clipboard. rewrite form_bind. unfold Form.read.
    cbn [fst snd Form.password_text Form.set_copy_enabled]. rewrite Hpw.
    apply form_lift_run, copy_to_clipboard_run. reflexivity.
  - cbn. rewrite Hpw, Hst, Hc, Ht. repeat split.
Qed.

(** X23 at work: the password stored for svc/alice. *)
Lemma form_get_then_copy_witness :
  let w := Form.set_username_text "alice"
             (Form.set_system_text " svc " Form.initial) in
  let st := fresh {[ ("svc", "alice") := "secret" ]} ∅ in
  ∃ w' st',
    (Form.execute_action;; Form.copy_to_clipboard) (w, st) = (inr tt, (w', st'))
    ∧ Form.password_text w' = "secret"
    ∧ clipboard st' = "secret"
    ∧ timers st' = [30].
Proof.
  intros w st.
  destruct (form_get_then_copy w st "secret")
    as (w' & st' & Hrun & Hpw & _ & Hclip & Htimers & _).
  - reflexivity.
  - reflexivity.
  - reflexivity.
  - exists w', st'. repeat split; assumption.
Defined.

(** X24: with Get selected, the form does not tell a stored empty password
    from a missing entry: in both cases [execute_action] sets
    [No password found] on the label with the error style, disables Copy,
    leaves the password field and the store as they are, and puts nothing
    on the clipboard. *)
Theorem form_get_nothing w st :
  Form.function_radio w = Form.RadioGet →
  store st !! (Str.strip (Form.system_text w),
               Str.strip (Form.username_text w)) = None
  ∨ store st !! (Str.strip (Form.system_text w),
                 Str.strip (Form.username_text w)) = Some EmptyString →
  ∃ w' st',
    Form.execute_action (w, st) = (inr tt, (w', st'))
    ∧ label st' = label st ++ [("No password found", true)]
    ∧ Form.copy_enabled w' = false
    ∧ Form.password_text w' = Form.password_text w
    ∧ store st' = store st
    ∧ clipboard st' = clipboard st.
Proof.
  intros Hr H. eexists _, _.
  split; [apply execute_action_get_nothing; assumption|]. repeat split.
Qed.

(** X24 at work: an entry whose password is the empty string. *)
Lemma form_get_nothing_witness :
  let w := Form.set_username_text "alice"
             (Form.set_system_text "svc" Form.initial) in
  let st := fresh {[ ("svc", "alice") := EmptyString ]} ∅ in
  ∃ w' st',
    Form.execute_action (w, st) = (inr tt, (w', st'))
    ∧ label st' = [("No password found", true)]
    ∧ Form.copy_enabled w' = false.
Proof.
  intros w st.
  destruct (form_get_nothing w st) as (w' & st' & Hrun & Hlabel & Hcopy & _).
  - reflexivity.
  - right. reflexivity.
  - exists w', st'. repeat split; assumption.
Defined.

(** Unchecking the reveal button masks the password when the button was
    checked, and does nothing otherwise. *)
Lemma reveal_setChecked_False_run w st :
  Form.reveal_setChecked_False (w, st)
  = (inr tt,
     (if Form.reveal_checked w
      then Form.set_reveal_detailed false
             (Form.set_password_shown false (Form.set_reveal_checked false w))
      else w, st)).
Proof.
  unfold Form.reveal_setChecked_False, Form.hide_password. run_form.
  destruct (Form.reveal_checked w); reflexivity.
Qed.

(** X25: [secure_exit] (and so the [clear_sensitive_fields] it starts
    with) never raises, whatever the window and the state: afterwards the
    password field is empty and masked, the reveal button is unchecked,
    Copy is disabled, the clipboard holds the empty string, the label is
    blank and the window is closed; the store is not called and the system
    and username fields are kept. *)
Theorem form_secure_exit_clears w st :
  ∃ w' st',
    Form.secure_exit (w, st) = (inr tt, (w', st'))
    ∧ Form.password_text w' = EmptyString
    ∧ Form.password_shown w' = false
    ∧ Form.reveal_checked w' = false
    ∧ Form.reveal_detailed w' = false
    ∧ Form.copy_enabled w' = false
    ∧ Form.closed w' = true
    ∧ Form.system_text w' = Form.system_text w
    ∧ Form.username_text w' = Form.username_text w
    ∧ clipboard st' = EmptyString
    ∧ last (label st') = Some (EmptyString, false)
    ∧ store st' = store st
    ∧ calls st' = calls st
    ∧ timers st' = timers st.
Proof.
  destruct (password_setText_frame EmptyString w st)
    as (w1 & st1 & Hset & Hpw & Hsy & Hus & _ & _ & Hrc & _
        & Hst & Hc & _ & Ht & _).
  eexists _, _. split.
  - unfold Form.secure_exit, Form.clear_sensitive_fields.
    rewrite !form_bind. rewrite Hset. cbv beta iota.
    rewrite !form_bind. unfold Form.widget at 1. cbn [fst snd].
    rewrite !form_bind, reveal_setChecked_False_run. reflexivity.
  - cbn. rewrite last_snoc.
    destruct (Form.reveal_checked w1) eqn:E;
      cbn; rewrite ?Hpw, ?Hsy, ?Hus, ?Hst, ?Hc, ?Ht, ?E; repeat split.
Qed.

(** X26: [toggle_password_visibility], run as the slot of the reveal
    button (so that the button's checked state is the argument), never
    raises and shows the password exactly when the button is checked and
    the password field is not empty; checking the button over an empty
    field unchecks it again.  The icon follows the echo mode, and nothing
    but the password's echo mode and the reveal button changes. *)
Theorem form_password_shown_iff w st checked :
  Form.reveal_checked w = checked →
  ∃ w',
    Form.toggle_password_visibility checked (w, st) = (inr tt, (w', st))
    ∧ Form.password_shown w' = checked && Str.truth (Form.password_text w)
    ∧ Form.reveal_checked w' = checked && Str.truth (Form.password_text w)
    ∧ Form.reveal_detailed w' = Form.password_shown w'
    ∧ Form.password_text w' = Form.password_text w
    ∧ Form.copy_enabled w' = Form.copy_enabled w
    ∧ Form.go_enabled w' = Form.go_enabled w.
Proof.
  intros Hc. unfold Form.toggle_password_visibility. rewrite form_bind.
  unfold Form.read. cbn [fst snd].
  destruct checked; destruct (Str.truth (Form.password_text w)); cbn [andb negb].
  - eexists. split; [reflexivity|]. cbn. rewrite Hc. repeat split.
  - rewrite reveal_setChecked_False_run, Hc. eexists. split; [reflexivity|].
    repeat split.
  - eexists. split; [reflexivity|]. cbn. rewrite Hc. repeat split.
  - eexists. split; [reflexivity|]. cbn. rewrite Hc. repeat split.
Qed.

(** X26 at work: the button is checked over an empty password field. *)
Lemma form_password_shown_iff_witness :
  let w := Form.set_reveal_checked true Form.initial in
  ∃ w',
    Form.toggle_password_visibility true (w, fresh ∅ ∅)
    = (inr tt, (w', fresh ∅ ∅))
    ∧ Form.password_shown w' = false
    ∧ Form.reveal_checked w' = false.
Proof.
  intros w.
  destruct (form_password_shown_iff w (fresh ∅ ∅) true eq_refl)
    as (w' & Hrun & Hshown & Hchecked & _).
  exists w'. repeat split; assumption.
Defined.

(** * The limits, as an invariant of the loop *)

(** What passes lines 141 to 155 is within the limits. *)
Lemma validate_bounds (row : gmap string value) st function system username
    password st1 :
  validate row st = (inr (function, system, username, password), st1) →
  Str.len system ≤ MAX_SYSTEM_LENGTH
  ∧ Str.len username ≤ MAX_USERNAME_LENGTH
  ∧ (function = "set" → Str.len password ≤ MAX_PASSWORD_LENGTH).
Proof.
  destruct (truth (get row "function") && truth (get row "system")
            && truth (get row "username")) eqn:Hcells.
  2:{ rewrite validate_missing; [discriminate|].
      apply andb_false_iff in Hcells as [[H|H]%andb_false_iff|H]; auto. }
  apply andb_true_iff in Hcells as [[Hf Hs]%andb_true_iff Hu].
  destruct (truth_get _ _ Hf) as (f & Ef & _).
  destruct (truth_get _ _ Hs) as (s & Es & _).
  destruct (truth_get _ _ Hu) as (u & Eu & _).
  unfold validate. rewrite Hf, Hs, Hu. cbn [negb orb].
  unfold getitem, get_default. rewrite Ef, Es, Eu.
  destruct (row !! "password") as [[|p]|]; cbn [default from_option id];
    run_monad; try discriminate.
  all: destruct (MAX_SYSTEM_LENGTH <? _) eqn:Ls; [discriminate|];
    destruct (MAX_USERNAME_LENGTH <? _) eqn:Lu; [discriminate|];
    destruct (bool_decide _ && _) eqn:Lp; [discriminate|];
    intros [= <- <- <- <- _];
    apply Nat.ltb_ge in Ls, Lu; (split; [exact Ls|]; split; [exact Lu|]);
    intros Hset; rewrite bool_decide_true in Lp by exact Hset;
    cbn [andb] in Lp; apply Nat.ltb_ge in Lp; exact Lp.
Qed.

(** The operations [dispatch] issues carry its arguments. *)
Lemma dispatch_calls function system username password st :
  ∃ cs,
    calls (snd (dispatch function system username password st)) = calls st ++ cs
    ∧ ∀ c, c ∈ cs →
           (c = SetPassword system username password ∧ function = "set")
           ∨ c = GetPassword system username
           ∨ c = DeletePassword system username.
Proof.
  destruct (decide (function = "set")) as [E|N1].
  { exists [SetPassword system username password].
    rewrite (dispatch_set _ _ _ _ st E). split; [reflexivity|].
    intros c ->%list_elem_of_singleton. auto. }
  destruct (decide (function = "get")) as [E|N2].
  { exists [GetPassword system username].
    rewrite (dispatch_get _ _ _ password st E). split; [reflexivity|].
    intros c ->%list_elem_of_singleton. auto. }
  destruct (decide (function = "del")) as [E|N3].
  { exists [DeletePassword system username].
    destruct (store st !! (system, username)) as [old|] eqn:H.
    - rewrite (dispatch_del_present _ _ _ password old st E H).
      split; [reflexivity|]. intros c ->%list_elem_of_singleton. auto.
    - rewrite (dispatch_del_absent _ _ _ password st E H).
      split; [reflexivity|]. intros c ->%list_elem_of_singleton. auto. }
  exists []. rewrite (dispatch_invalid _ _ _ password st N1 N2 N3).
  split; [cbn; rewrite app_nil_r; reflexivity|]. intros c Hc.
  apply not_elem_of_nil in Hc. destruct Hc.
Qed.

(** One turn of the loop issues only operations within the limits. *)
Lemma row_step_calls display (row : gmap string value) (st : state) :
  ∃ cs,
    calls (snd (row_step display row st)) = calls st ++ cs
    ∧ Forall within_limits cs.
Proof.
  destruct (row_step_effect display row st)
    as (r & st' & lines & cs0 & Hrow & Hshape & _ & Hc0 & _).
  destruct (truth (get row "function") && truth (get row "system")
            && truth (get row "username")) eqn:Hcells.
  - apply andb_true_iff in Hcells as [[Hf Hs]%andb_true_iff Hu].
    destruct (validate_present_key row st Hf Hs Hu)
      as [(fn & pw & Hv) | (e & He & Hv)].
    + destruct (validate_bounds _ _ _ _ _ _ _ Hv) as (Bs & Bu & Bp).
      destruct (dispatch_calls fn (cell row "system") (cell row "username") pw
                  (assigned (cell row "system") (cell row "username") st))
        as (cs & Hc & Hin).
      destruct (dispatch fn (cell row "system") (cell row "username") pw
                  (assigned (cell row "system") (cell row "username") st))
        as [r2 st2] eqn:Hd.
      cbn [snd] in Hc. exists cs. split.
      * destruct r2 as [e|res].
        -- destruct (dispatch_effect fn (cell row "system")
                       (cell row "username") pw
                       (assigned (cell row "system") (cell row "username") st))
             as (r3 & st3 & _ & Hd3 & Hr & _ & Hls & Hlu & _).
           rewrite Hd in Hd3. injection Hd3 as <- <-.
           erewrite row_step_caught;
             [|eapply row_try_store_error; [exact Hv|exact Hd] | exact Hr
              | rewrite Hls; reflexivity | rewrite Hlu; reflexivity].
           cbn [snd]. rewrite calls_failure. exact Hc.
        -- erewrite row_step_ok by (eapply row_try_ok; [exact Hv|exact Hd]).
           cbn [snd]. rewrite calls_success. exact Hc.
      * apply Forall_forall. intros c Hin'.
        destruct (Hin c Hin') as [[-> Hset] | [-> | ->]]; cbn; auto.
    + exists []. split; [|constructor].
      erewrite row_step_caught;
        [|apply row_try_invalid; exact Hv | exact He | reflexivity ..].
      cbn [snd]. rewrite calls_failure, app_nil_r. reflexivity.
  - assert (truth (get row "function") = false ∨ truth (get row "system") = false
            ∨ truth (get row "username") = false) as Hmiss.
    { apply andb_false_iff in Hcells as [[H|H]%andb_false_iff|H]; auto. }
    pose proof (row_try_invalid display row _ _ _ (validate_missing row st Hmiss))
      as Htry.
    exists []. split; [|constructor]. rewrite app_nil_r.
    destruct (loc_system st) as [sy|] eqn:Hsy;
      [destruct (loc_username st) as [us|] eqn:Hus|].
    + erewrite row_step_caught;
        [|exact Htry | reflexivity | exact Hsy | exact Hus].
      cbn [snd]. rewrite calls_failure. reflexivity.
    + destruct (row_except_raises display (ValueError
                  "Missing required field(s): function, system, or username")
                  st (or_intror Hus)) as (msg & Hh).
      assert (row_step display row st = (inl (UnboundLocalError msg), st)) as ->
        by (unfold row_step; rewrite (run_try_raise _ _ _ _ _ Htry); exact Hh).
      reflexivity.
    + destruct (row_except_raises display (ValueError
                  "Missing required field(s): function, system, or username")
                  st (or_introl Hsy)) as (msg & Hh).
      assert (row_step display row st = (inl (UnboundLocalError msg), st)) as ->
        by (unfold row_step; rewrite (run_try_raise _ _ _ _ _ Htry); exact Hh).
      reflexivity.
Qed.

(** The whole loop issues only operations within the limits. *)
Lemma for_rows_calls display (rows : list (gmap string value)) :
  ∀ st,
    ∃ cs,
      calls (snd (for_rows display rows st)) = calls st ++ cs
      ∧ Forall within_limits cs.
Proof.
  induction rows as [|row rows IH]; intros st.
  - exists []. rewrite app_nil_r. split; [reflexivity|constructor].
  - destruct (row_step_calls display row st) as (c1 & Hc1 & Hw1).
    destruct (row_step display row st) as [[e|[]] st1] eqn:Hrow; cbn [snd] in Hc1.
    + exists c1. cbn [for_rows]. rewrite (run_bind_raise _ _ _ _ _ Hrow).
      split; [exact Hc1|exact Hw1].
    + destruct (IH st1) as (c2 & Hc2 & Hw2).
      exists (c1 ++ c2). cbn [for_rows]. rewrite (run_bind_ok _ _ _ _ _ Hrow).
      rewrite Hc2, Hc1, app_assoc. split; [reflexivity|].
      apply Forall_app. split; assumption.
Qed.

(** The operations of a whole call are those of its loop, if it gets that
    far. *)
Lemma process_bulk_csv_calls path display st :
  calls (snd (process_bulk_csv path display st)) = calls st
  ∨ ∃ file,
      files st !! path = Some file
      ∧ calls (snd (process_bulk_csv path display st))
        = calls (snd (for_rows display (DictReader.rows file)
                        (set_out_file [] (unassigned st)))).
Proof.
  destruct (process_bulk_csv_effect path display st)
    as (r & st' & cs & Hrun & _ & Hc & Hfile & _).
  destruct (files st !! path) as [file|] eqn:Hf.
  2:{ left. rewrite Hrun. cbn [snd]. destruct Hfile as [_ ->].
      rewrite Hc, app_nil_r. reflexivity. }
  clear r st' cs Hrun Hc Hfile.
  unfold process_bulk_csv. rewrite (run_bind_ok _ _ _ tt (unassigned st))
    by reflexivity.
  assert (open_read path (unassigned st) = (inr file, unassigned st)) as Hopen.
  { unfold open_read. run_monad.
    cbn [files unassigned set_loc_username set_loc_system].
    rewrite Hf. reflexivity. }
  set (st0 := set_out_file [] (unassigned st)).
  destruct (decide (DictReader.fieldnames file = Some HEADER)) as [Hhdr|Hhdr].
  2:{ left. erewrite run_try_raise.
      2:{ rewrite (run_bind_ok _ _ _ _ _ Hopen).
          erewrite run_bind_ok by reflexivity.
          apply run_bind_raise. unfold raise_if.
          rewrite bool_decide_true by exact Hhdr. reflexivity. }
      rewrite fatal_run by reflexivity.
      destruct display; reflexivity. }
  right. exists file. split; [reflexivity|].
  destruct (for_rows_effect display (DictReader.rows file) st0)
    as (r1 & st1 & lines & cs1 & Hloop & Hshape & _).
  rewrite Hloop. cbn [snd].
  destruct Hshape as [(-> & _) | ((msg & ->) & _ & _ & -> & _)].
  - set (msg := "Bulk processing complete." +:+ Str.newline
                +:+ "Results saved to " +:+ Str.quote +:+ "./"
                +:+ results_filename +:+ Str.quote).
    destruct (viewer_step_cases display (reported msg false display st1))
      as (st3 & Hview & Hst3).
    destruct (reported_quiet_store msg false display st1) as (_ & Rc & _).
    assert (calls st3 = calls st1) as Vc.
    { destruct Hst3 as [-> | (m & ->)]; [exact Rc|].
      destruct (reported_quiet_store m true display
                  (reported msg false display st1)) as (_ & Qc & _).
      rewrite Qc. exact Rc. }
    erewrite run_try_ok.
    2:{ rewrite (run_bind_ok _ _ _ _ _ Hopen).
        erewrite run_bind_ok by reflexivity.
        erewrite run_bind_ok.
        2:{ unfold raise_if.
            rewrite bool_decide_false by (intros H; apply H; exact Hhdr).
            reflexivity. }
        fold st0. rewrite (run_bind_ok _ _ _ _ _ Hloop).
        rewrite (run_bind_ok _ _ _ _ _ (update_status_run _ _ _ _)).
        fold msg. rewrite (run_bind_ok _ _ _ _ _ Hview). reflexivity. }
    cbn [snd calls set_timers set_clipboard]. exact Vc.
  - erewrite run_try_raise.
    2:{ rewrite (run_bind_ok _ _ _ _ _ Hopen).
        erewrite run_bind_ok by reflexivity.
        erewrite run_bind_ok.
        2:{ unfold raise_if.
            rewrite bool_decide_false by (intros H; apply H; exact Hhdr).
            reflexivity. }
        fold st0. apply run_bind_raise, Hloop. }
    rewrite fatal_run by reflexivity.
    destruct display; reflexivity.
Qed.

(** X27: whatever the input file holds, every operation a call of
    [process_bulk_csv] issues on the store is within the limits: a system
    name of at most 254 characters, a username of at most 32 and, for a
    [set], a password of at most 400. *)
Theorem batch_operations_within_limits path display st :
  ∃ cs,
    calls (snd (process_bulk_csv path display st)) = calls st ++ cs
    ∧ Forall within_limits cs.
Proof.
  destruct (process_bulk_csv_calls path display st) as [H | (file & _ & H)];
    rewrite H.
  - exists []. rewrite app_nil_r. split; [reflexivity|constructor].
  - destruct (for_rows_calls display (DictReader.rows file)
                (set_out_file [] (unassigned st))) as (cs & Hc & Hw).
    exists cs. split; [exact Hc|exact Hw].
Qed.

(** X28: on the command line, [del] exits with status 0 whatever the store
    holds, writes nothing to the error stream, issues one delete operation,
    leaves the pair absent and keeps every other pair. *)
Theorem cli_del_always_exits_zero system username st :
  let run := main (Args None (Some (CmdDel system username))) st in
  fst run = 0%Z
  ∧ stderr (snd run) = stderr st
  ∧ calls (snd run) = calls st ++ [DeletePassword system username]
  ∧ store (snd run) !! (system, username) = None
  ∧ ∀ k, k ≠ (system, username) → store (snd run) !! k = store st !! k.
Proof.
  cbv zeta. unfold main, cli_handler. cbn [bulk cmd].
  destruct (store st !! (system, username)) as [old|] eqn:H.
  - erewrite run_try_ok.
    2:{ erewrite run_bind_ok by (eapply delete_password_present, H).
        reflexivity. }
    cbn. repeat split; [apply lookup_delete_eq|].
    intros k Hk. apply lookup_delete_ne. congruence.
  - erewrite run_try_raise.
    2:{ apply run_bind_raise, delete_password_absent, H. }
    cbn [is_PasswordDeleteError]. cbn. repeat split. exact H.
Qed.
